(** * pd-1: misconception analyzer and analysis service

    A shallow embedding of [models/text.py], [models/analyzer.py] and
    [backend/app.py], and the properties of the scoring, fallback and
    guidance rules.

    Modelling conventions.
    - A Python [float] is modelled by the rational number it denotes
      ([Q]); [round(x, n)] is rounding to [n] decimals, ties to even.
      Statements about numbers use [==] ([Qeq]), [<=] and [<] on [Q].
      This model carries the bounds and the decisions, which do not depend
      on the last bit of a float.  The exact value of a rounded score does:
      the module [Binary64] has the arithmetic of Python's floats (binary64
      and Python's [round]), [AnalyzeBinary64] embeds the analyze handler
      over it, and the two numeric counterexamples are replayed there.
    - A Python [str] is the [string] of its UTF-8 bytes, so a non-ASCII
      character such as the Greek letter in the guidance keyword list is
      its byte sequence.  [len] counts characters ([Str.len]).
      [str.lower] has the case table of the characters that can produce a
      character of a keyword (see [Str.lower]).  The whitespace class of
      [str.strip] and of the regular expression is the ASCII one; the
      statements that depend on the class are made for ASCII texts.
    - A raised exception is the [Raise] constructor of [result]; the
      endpoints turn it into [HTTPException].
    - The sentence encoder, the classifier and the difficulty estimator
      are opaque artifacts: they are fields of records, never unfolded
      by a general theorem.  The encoder is a total function from a text
      to its vector; the classifier and the estimator may raise. *)

From Stdlib Require Import ZArith QArith Qround Qminmax Lia Lqa String Ascii List Bool
  Sorted.
From stdpp Require Import base option gmap.
From Stdlib Require PrimFloat FloatOps SpecFloat.
Import ListNotations.

Local Open Scope string_scope.
Local Open Scope list_scope.
Local Open Scope Z_scope.
Local Open Scope Q_scope.

(* ===================================================================== *)
(** * Exceptions *)

Inductive exn : Type := Exception (msg : string).

Inductive result (A : Type) : Type :=
| Ok (a : A)
| Raise (e : exn).
Arguments Ok {A} a.
Arguments Raise {A} e.

Definition bind {A B : Type} (r : result A) (k : A -> result B) : result B :=
  match r with
  | Ok a => k a
  | Raise e => Raise e
  end.

(** [try: body except: handler] for [except Exception]. *)
Definition try_except {A : Type} (body handler : result A) : result A :=
  match body with
  | Ok a => Ok a
  | Raise _ => handler
  end.

Declare Scope result_scope.
Delimit Scope result_scope with result.
Notation "x <- r ;; k" := (bind r (fun x => k))
  (at level 100, r at next level, right associativity) : result_scope.
Local Open Scope result_scope.

Definition exn_msg (e : exn) : string := let 'Exception m := e in m.

(* ===================================================================== *)
(** * Numbers *)

Module Num.

(** [x < y] on floats. *)
Definition ltb (x y : Q) : bool := negb (Qle_bool y x).

(** Nearest integer, ties to the even one. *)
Definition round_half_even (q : Q) : Z :=
  let f := Qfloor q in
  match (q - inject_Z f ?= 1 # 2)%Q with
  | Lt => f
  | Gt => (f + 1)%Z
  | Eq => if Z.even f then f else (f + 1)%Z
  end.

(** Python's [round(x, ndigits)]. *)
Definition round (x : Q) (ndigits : nat) : Q :=
  let s := (10 ^ Z.of_nat ndigits)%Z in
  Qmake (round_half_even (x * inject_Z s)) (Z.to_pos s).

(** Python's two-argument [max] and [min]: the first argument wins ties. *)
Definition max (a b : Q) : Q := Qmax a b.
Definition min (a b : Q) : Q := Qmin a b.

End Num.

(** The arithmetic of the two scoring rules in IEEE 754 binary64, to replay
    the numeric counterexamples without the rational abstraction. *)
Module Binary64.
Import PrimFloat.
#[local] Set Warnings "-inexact-float".

(** [max(a, b)] *)
Definition max (a b : float) : float := if (a <? b)%float then b else a.

(** [0.65*sim_ui_vs_ideal + 0.35*(1.0 - mis_risk)], before rounding. *)
Definition blend (sim_ui_vs_ideal mis_risk : float) : float :=
  (0.65 * sim_ui_vs_ideal + 0.35 * (1.0 - mis_risk))%float.

(** [max(0.4, 1.0 - conf + 0.4)] *)
Definition misconception_risk (conf : float) : float :=
  max 0.4%float (1.0 - conf + 0.4)%float.

(** [min(a, b)] *)
Definition min (a b : float) : float := if (b <? a)%float then b else a.

(** The exact value [m * 2^e] of a finite float, multiplied by [10^n]. *)
Definition scaled (m : positive) (e : Z) (n : nat) : Q :=
  let p := (Z.pos m * 10 ^ Z.of_nat n)%Z in
  if (0 <=? e)%Z then inject_Z (p * 2 ^ e) else Qmake p (Z.to_pos (2 ^ (- e))).

(** A positive integer below 2^53 as a float; the conversion is exact. *)
Definition of_pos (p : positive) : float :=
  FloatOps.SF2Prim (SpecFloat.S754_finite false p 0).

(** Python's [round(x, ndigits)] on a float, for [0 <= ndigits <= 15]: the
    exact value of [x] is rounded to [ndigits] decimals, ties to even, and
    the result is the float nearest to that decimal (the quotient of two
    exactly represented integers, correctly rounded by the division).  The
    sign is kept on a zero result; a NaN, an infinity and a float too large
    to have decimals at that place are returned as they are. *)
Definition round (x : float) (ndigits : nat) : float :=
  match FloatOps.Prim2SF x with
  | SpecFloat.S754_finite s m e =>
      match Num.round_half_even (scaled m e ndigits) with
      | Z.pos k =>
          if (Z.pos k <? 2 ^ 53)%Z
          then let r := (of_pos k / of_pos (Z.to_pos (10 ^ Z.of_nat ndigits)))%float in
               if s then (- r)%float else r
          else x
      | _ => if s then neg_zero else zero
      end
  | _ => x
  end.

End Binary64.

(* ===================================================================== *)
(** * Strings *)

Module Str.

(** [str.isspace] on the ASCII range: TAB, LF, VT, FF, CR, FS, GS, RS,
    US and the space. *)
Definition isspace (c : ascii) : bool :=
  let n := nat_of_ascii c in
  ((9 <=? n)%nat && (n <=? 13)%nat)
  || ((28 <=? n)%nat && (n <=? 32)%nat).

Definition lower_char (c : ascii) : ascii :=
  let n := nat_of_ascii c in
  if ((65 <=? n)%nat && (n <=? 90)%nat) then ascii_of_nat (n + 32) else c.

(** [s.lower()], on the UTF-8 bytes of [s].  The case table is the one of
    the characters whose lowercase form has a character in common with a
    keyword of the analyzer: the ASCII capitals, the Greek capital epsilon
    (U+0395, bytes CE 95, the only character that lowers to the epsilon of
    the guidance keywords) and the dotted capital I (U+0130, bytes C4 B0,
    which lowers to "i" followed by U+0307).  Every other character is
    copied: neither it nor its lowercase form contains a character of a
    keyword, so the keyword tests see the same occurrences. *)
Fixpoint lower (s : string) : string :=
  match s with
  | EmptyString => EmptyString
  | String c t =>
      match t with
      | String d t' =>
          if ((nat_of_ascii c =? 206) && (nat_of_ascii d =? 149))%nat
          then String c (String (ascii_of_nat 181) (lower t'))
          else if ((nat_of_ascii c =? 196) && (nat_of_ascii d =? 176))%nat
          then String "i"%char
                 (String (ascii_of_nat 204) (String (ascii_of_nat 135) (lower t')))
          else String (lower_char c) (lower t)
      | EmptyString => String (lower_char c) EmptyString
      end
  end.

(** [len(s)]: the number of characters, that is of the bytes of the UTF-8
    encoding that are not continuation bytes (80 to BF). *)
Fixpoint len (s : string) : nat :=
  match s with
  | EmptyString => 0
  | String c t =>
      let n := nat_of_ascii c in
      if ((128 <=? n) && (n <=? 191))%nat then len t else S (len t)
  end.

(** [s.isascii()] *)
Fixpoint is_ascii (s : string) : bool :=
  match s with
  | EmptyString => true
  | String c t => (nat_of_ascii c <? 128)%nat && is_ascii t
  end.

Fixpoint rev_append (s acc : string) : string :=
  match s with
  | EmptyString => acc
  | String c t => rev_append t (String c acc)
  end.

Definition rev (s : string) : string := rev_append s EmptyString.

Fixpoint lstrip (s : string) : string :=
  match s with
  | EmptyString => EmptyString
  | String c t => if isspace c then lstrip t else s
  end.

Definition rstrip (s : string) : string := rev (lstrip (rev s)).

(** [s.strip()] *)
Definition strip (s : string) : string := rstrip (lstrip s).

(** [re.sub(r"\s+", " ", s)]: every maximal run of whitespace becomes one
    space.  [in_run] says that the previous character was whitespace. *)
Fixpoint sub_spaces (in_run : bool) (s : string) : string :=
  match s with
  | EmptyString => EmptyString
  | String c t =>
      if isspace c
      then if in_run then sub_spaces true t
           else String " "%char (sub_spaces true t)
      else String c (sub_spaces false t)
  end.

(** [k in s] for strings: [k] occurs in [s] as a substring. *)
Fixpoint contains (k s : string) : bool :=
  String.prefix k s
  || match s with
     | EmptyString => false
     | String _ t => contains k t
     end.

(** [s.endswith(suffix)] *)
Definition endswith (s suffix : string) : bool :=
  String.prefix (rev suffix) (rev s).

(** [x in xs] for a list of strings. *)
Definition mem (x : string) (xs : list string) : bool :=
  existsb (String.eqb x) xs.

(** [sorted(set(xs))]: the distinct elements in increasing order. *)
Fixpoint insert_sorted (x : string) (xs : list string) : list string :=
  match xs with
  | [] => [x]
  | y :: t =>
      match String.compare x y with
      | Lt => x :: xs
      | Eq => xs
      | Gt => y :: insert_sorted x t
      end
  end.

Definition sorted_set (xs : list string) : list string :=
  fold_right insert_sorted [] xs.

End Str.

(* ===================================================================== *)
(** * models/text.py *)

(** An embedding vector. *)
Abbreviation vec := (list Q).

(** The sentence encoder, one text at a time. *)
Abbreviation Encoder := (string -> vec).

(** [embed(texts, encoder)]: one vector per text. *)
Definition embed (texts : list string) (encoder : Encoder) : list vec :=
  map encoder texts.

(** [a @ b.T] for two row vectors: defined when the widths agree. *)
Fixpoint matmul_row (a b : vec) : result Q :=
  match a, b with
  | [], [] => Ok 0
  | x :: a', y :: b' => s <- matmul_row a' b' ;; Ok (x * y + s)
  | _, _ => Raise (Exception "matmul: shapes not aligned")
  end.

Definition cosine_sim (a b : vec) : result Q :=
  s <- matmul_row a b ;;
  Ok (Num.max (-1.0) (Num.min 1.0 s)).

Definition clean_text (t : string) : string :=
  Str.sub_spaces false (Str.strip t).

(* ===================================================================== *)
(** * models/analyzer.py *)

(** The classifier artifact, as far as [predict_label] uses it: either
    method may raise. *)
Record Classifier : Type := {
  predict_proba : vec -> result (list Q);
  classes_ : list string;
  predict : vec -> result string
}.

(** Modelled from the spec: the class [DifficultyEstimator] of
    [models/difficulty.py], which is not among the sources.  The spec gives
    its interface: [estimate(question_text, qid?)] returns a normalized
    difficulty, a bucket and an optional echo of the id, and the estimator
    exposes its item count for health reporting. *)
Record DifficultyEstimate : Type := {
  difficulty_norm : Q;
  bucket : string;
  diff_qid : option Z
}.

(** Modelled from the spec: the estimator object itself, with the two
    members that [backend/app.py] uses, [n_items] and [estimate]. *)
Record DifficultyEstimator : Type := {
  n_items : nat;
  estimate : string -> option Z -> result DifficultyEstimate
}.

(** The artifacts directory: the files the loaders look for, with their
    contents when present.  A row of the label table is [(qid, label)].
    The first two files are those of [MisconceptionAnalyzer._load]; the
    item-difficulty table is the one the specification gives to the
    difficulty estimator. *)
Record ArtifactsDir : Type := {
  misconception_clf_joblib : option Classifier;
  cluster_labels_parquet : option (list (Z * string));
  difficulty_table : option (list (Z * DifficultyEstimate))
}.

Definition empty_dir : ArtifactsDir :=
  {| misconception_clf_joblib := None;
     cluster_labels_parquet := None;
     difficulty_table := None |}.

(** Modelled from the spec: the constructor of [DifficultyEstimator], not
    among the sources: it loads a pre-trained item-difficulty table from
    the artifacts directory and exposes the item count, which is 0 when
    nothing was loaded.  [est] is the estimation function, left opaque. *)
Definition DifficultyEstimator_init
    (artifacts_dir : ArtifactsDir)
    (est : string -> option Z -> result DifficultyEstimate)
  : DifficultyEstimator :=
  {| n_items := match difficulty_table artifacts_dir with
                | Some rows => length rows
                | None => 0%nat
                end;
     estimate := est |}.

Record MisconceptionAnalyzer : Type := {
  encoder : Encoder;
  loaded : bool;
  label_ref : gmap Z (list string);
  clf : option Classifier
}.

(** The dict returned by [predict_label]; a field is [None] when the key is
    absent. *)
Record Prediction : Type := {
  pred_label : option string;
  pred_confidence : option Q;
  pred_risk : option Q;
  pred_explanation : option string
}.

(** [d.get(key, default)] on a field of the dict. *)
Definition get {A : Type} (field : option A) (dflt : A) : A :=
  match field with
  | Some v => v
  | None => dflt
  end.

(** The labels of the rows of one [qid] group. *)
Definition group (rows : list (Z * string)) (qid : Z) : list string :=
  map snd (List.filter (fun r => Z.eqb (fst r) qid) rows).

Definition _load (self : MisconceptionAnalyzer) (art : ArtifactsDir)
  : MisconceptionAnalyzer :=
  (* classifier *)
  let clf' := match misconception_clf_joblib art with
              | Some c => Some c
              | None => clf self
              end in
  (* labels *)
  let label_ref' :=
    match cluster_labels_parquet art with
    | Some df =>
        fold_left
          (fun m r => <[fst r := Str.sorted_set (group df (fst r))]> m)
          df (label_ref self)
    | None => label_ref self
    end in
  {| encoder := encoder self;
     loaded := true;
     label_ref := label_ref';
     clf := clf' |}.

(** [MisconceptionAnalyzer.__init__] *)
Definition MisconceptionAnalyzer_init (artifacts_dir : ArtifactsDir)
    (enc : Encoder) : MisconceptionAnalyzer :=
  _load {| encoder := enc; loaded := false; label_ref := ∅; clf := None |}
        artifacts_dir.

Definition similarity (self : MisconceptionAnalyzer) (a_text b_text : string)
  : result Q :=
  match embed [clean_text a_text; clean_text b_text] (encoder self) with
  | [a_vec; b_vec] =>
      s <- cosine_sim a_vec b_vec ;;
      Ok (Num.round s 4)
  | _ => Raise (Exception "not enough values to unpack")
  end.

(** [np.argmax]: the first index of the largest element. *)
Fixpoint argmax_from (best : nat) (bestv : Q) (i : nat) (xs : list Q) : nat :=
  match xs with
  | [] => best
  | x :: t =>
      if Num.ltb bestv x then argmax_from i x (S i) t
      else argmax_from best bestv (S i) t
  end.

Definition argmax (xs : list Q) : result nat :=
  match xs with
  | [] => Raise (Exception "attempt to get argmax of an empty sequence")
  | x :: t => Ok (argmax_from 0 x 1 t)
  end.

(** [xs[i]] *)
Definition getitem {A : Type} (xs : list A) (i : nat) : result A :=
  match nth_error xs i with
  | Some x => Ok x
  | None => Raise (Exception "index out of range")
  end.

Definition risk_keywords : list string :=
  ["miscon"; "error"; "wrong"; "confuse"; "noise"].

Definition unseen_marker : string := " (unseen@qid)".

(** The [try]/[except] of [predict_label]: the classifier's label and
    confidence for one vector. *)
Definition classify (c : Classifier) (v : vec) : result (string * Q) :=
  try_except
    (* predict_proba if available *)
    (proba <- predict_proba c v ;;
     idx <- argmax proba ;;
     label <- getitem (classes_ c) idx ;;
     conf <- getitem proba idx ;;
     Ok (label, conf))
    (label <- predict c v ;;
     Ok (label, 0.6)).

Definition predict_label (self : MisconceptionAnalyzer) (user_answer : string)
    (qid : option Z) : result Prediction :=
  let text := clean_text user_answer in
  vec0 <- getitem (embed [text] (encoder self)) 0 ;;
  match clf self with
  | None =>
      (* fallback: no classifier available *)
      Ok {| pred_label := Some "unknown";
            pred_confidence := Some 0.5;
            pred_risk := Some 0.4;
            pred_explanation := Some "No classifier artifact found." |}
  | Some c =>
      lc <- classify c vec0 ;;
      let label := fst lc in
      let conf := snd lc in
      (* heuristic risk: high if label seems misconception-like *)
      let risk := 0.2 in
      let risk :=
        if existsb (fun k => Str.contains k (Str.lower label)) risk_keywords
        then Num.max 0.4 (1.0 - conf + 0.4)
        else risk in
      (* if we know valid labels for this qid, flag OOD *)
      let ood :=
        match qid with
        | Some q =>
            match label_ref self !! q with
            | Some known => negb (Str.mem label known)
            | None => false
            end
        | None => false
        end in
      let label := if ood then (label ++ unseen_marker)%string else label in
      let risk := if ood then Num.max risk 0.5 else risk in
      Ok {| pred_label := Some label;
            pred_confidence := Some (Num.round conf 3);
            pred_risk := Some (Num.round risk 3);
            pred_explanation := None |}
  end.

Definition guidance_keywords : list string :=
  ["epsilon"; "ε"; "dfa"; "nfa"; "regex"; "star"; "union"; "concat"; "equiv"].

Definition tip_start : string :=
  "Start by restating the key term from the question in one line.".
Definition tip_definition : string :=
  "Add a precise definition and one verifying example.".
Definition tip_contrast : string :=
  "Address the specific confusion noted in the label; contrast the two concepts explicitly.".
Definition tip_finish : string :=
  "Finish with a short check: why your answer satisfies the definition or rule.".

Definition suggest_guidance (self : MisconceptionAnalyzer)
    (question ideal user mis_label : string) : result string :=
  sim_ui <- similarity self user ideal ;;
  let tips := [] in
  (* core elements *)
  let tips := tips ++ [tip_start] in
  let tips := if Num.ltb sim_ui 0.65 then tips ++ [tip_definition] else tips in
  let tips :=
    if existsb (fun k => Str.contains k (Str.lower mis_label)) guidance_keywords
    then tips ++ [tip_contrast]
    else tips in
  let tips := tips ++ [tip_finish] in
  Ok (String.concat " " tips).

(* ===================================================================== *)
(** * backend/app.py *)

(** What an endpoint answers: a JSON body, an [HTTPException], or the
    framework's rejection of a body that fails the schema (status 422). *)
Inductive response (A : Type) : Type :=
| Json (body : A)
| HTTPException (status_code : Z) (detail : string)
| RequestValidationError.
Arguments Json {A} body.
Arguments HTTPException {A} status_code detail.
Arguments RequestValidationError {A}.

(** The components loaded on startup. *)
Record App : Type := {
  mis_analyzer : MisconceptionAnalyzer;
  diff_est : DifficultyEstimator
}.

Definition startup (ART_DIR : ArtifactsDir) (enc : Encoder)
    (est : string -> option Z -> result DifficultyEstimate) : App :=
  {| mis_analyzer := MisconceptionAnalyzer_init ART_DIR enc;
     diff_est := DifficultyEstimator_init ART_DIR est |}.

Record Health : Type := {
  ok : bool;
  artifacts : bool;
  difficulty_items : nat
}.

Definition health (app : App) : Health :=
  {| ok := true;
     artifacts := loaded (mis_analyzer app);
     difficulty_items := n_items (diff_est app) |}.

(** ---- Schemas ---- *)
Record AnalyzeBody : Type := {
  question_text : string;
  ideal_answer_text : string;
  user_answer_text : string;
  qid : option Z
}.

(** [Field(..., min_length=n)] *)
Definition min_length (n : nat) (s : string) : bool :=
  (n <=? Str.len s)%nat.

(** The schema check of [AnalyzeBody]. *)
Definition AnalyzeBody_valid (b : AnalyzeBody) : bool :=
  min_length 3 (question_text b)
  && min_length 3 (ideal_answer_text b)
  && min_length 1 (user_answer_text b).

Record Similarity : Type := {
  user_vs_ideal : Q;
  question_vs_ideal : Q
}.

Record Charts : Type := {
  pie : list (string * Q);
  bars : list (string * Q)
}.

Record AnalysisResult : Type := {
  res_question_text : string;
  res_ideal_answer_text : string;
  res_user_answer_text : string;
  res_similarity : Similarity;
  res_misconception : Prediction;
  res_difficulty : DifficultyEstimate;
  answer_score : Q;
  guidance : string;
  charts : Charts
}.

(** ---- Endpoints ---- *)
Definition predict_misconception (app : App) (user_answer_text : string)
    (qid : option Z) : response Prediction :=
  match predict_label (mis_analyzer app) user_answer_text qid with
  | Ok pred => Json pred
  | Raise e =>
      HTTPException 500 ("Misconception prediction failed: " ++ exn_msg e)%string
  end.

Definition estimate_difficulty (app : App) (question_text : string)
    (qid : option Z) : response DifficultyEstimate :=
  match estimate (diff_est app) question_text qid with
  | Ok d => Json d
  | Raise e =>
      HTTPException 500 ("Difficulty estimation failed: " ++ exn_msg e)%string
  end.

(** [label in ("noise", "misc")], on the result of [mis_pred.get("label")]. *)
Definition is_noise_or_misc (label : option string) : bool :=
  match label with
  | Some l => String.eqb l "noise" || String.eqb l "misc"
  | None => false
  end.

(** Step 4 of [analyze_freeform], first half: the local [mis_risk] as a
    function of the prediction [mis_pred]. *)
Definition mis_risk_of (mis_pred : Prediction) : Q :=
  let mis_risk :=
    if is_noise_or_misc (pred_label mis_pred)
    then 1.0 - get (pred_confidence mis_pred) 0.5
    else get (pred_risk mis_pred) 0.4 in
  (* normalize risk *)
  let mis_risk := Num.max 0.0 (Num.min 1.0 mis_risk) in
  mis_risk.

(** The body of the [try] block of [analyze_freeform]. *)
Definition analyze_freeform_body (app : App) (b : AnalyzeBody)
  : result AnalysisResult :=
  let mis_analyzer := mis_analyzer app in
  let diff_est := diff_est app in
  (* 1) similarities *)
  sim_ui_vs_ideal <-
    similarity mis_analyzer (user_answer_text b) (ideal_answer_text b) ;;
  sim_qi <- similarity mis_analyzer (question_text b) (ideal_answer_text b) ;;
  (* 2) misconception prediction *)
  mis_pred <- predict_label mis_analyzer (user_answer_text b) (qid b) ;;
  (* 3) question difficulty *)
  diff <- estimate diff_est (question_text b) (qid b) ;;
  (* 4) overall answer quality score *)
  let mis_risk := mis_risk_of mis_pred in
  let score := 0.65 * sim_ui_vs_ideal + 0.35 * (1.0 - mis_risk) in
  let score := Num.round score 3 in
  (* 5) guidance *)
  guidance <-
    suggest_guidance mis_analyzer (question_text b) (ideal_answer_text b)
      (user_answer_text b) (get (pred_label mis_pred) "noise") ;;
  (* 6) chart-ready payloads *)
  let pie :=
    [ ("Matches Ideal", Num.round sim_ui_vs_ideal 3);
      ("Gaps vs Ideal",
       Num.round (Num.max 0.0 (1.0 - sim_ui_vs_ideal - 0.15)) 3);
      ("Misconception Risk", Num.round (Num.min 0.4 mis_risk) 3) ] in
  let bars :=
    [ ("User vs Ideal", Num.round sim_ui_vs_ideal 3);
      ("Question vs Ideal", Num.round sim_qi 3);
      ("Difficulty (0 easy–1 hard)", Num.round (difficulty_norm diff) 3) ] in
  (* final payload *)
  Ok {| res_question_text := question_text b;
        res_ideal_answer_text := ideal_answer_text b;
        res_user_answer_text := user_answer_text b;
        res_similarity :=
          {| user_vs_ideal := Num.round sim_ui_vs_ideal 3;
             question_vs_ideal := Num.round sim_qi 3 |};
        res_misconception := mis_pred;
        res_difficulty := diff;
        answer_score := score;
        guidance := guidance;
        charts := {| pie := pie; bars := bars |} |}.

Definition analyze_freeform (app : App) (b : AnalyzeBody)
  : response AnalysisResult :=
  match analyze_freeform_body app b with
  | Ok r => Json r
  | Raise e => HTTPException 500 ("Analysis failed: " ++ exn_msg e)%string
  end.

(** [POST /api/analyze/freeform]: the schema check, then the handler. *)
Definition post_analyze_freeform (app : App) (b : AnalyzeBody)
  : response AnalysisResult :=
  if AnalyzeBody_valid b then analyze_freeform app b
  else RequestValidationError.

(* ===================================================================== *)
(** * backend/app.py over binary64

    The handler of [POST /api/analyze/freeform] once more, with Python's
    floats as binary64 numbers, for the statements about the exact value of
    a score.  The analyzer and the estimator enter through the methods that
    the handler calls. *)

Module AnalyzeBinary64.
Import PrimFloat.
#[local] Set Warnings "-inexact-float".

(** The dict returned by [predict_label]. *)
Record Prediction : Type := {
  pred_label : option string;
  pred_confidence : option float;
  pred_risk : option float;
  pred_explanation : option string
}.

(** The dict returned by [estimate]. *)
Record DifficultyEstimate : Type := {
  difficulty_norm : float;
  bucket : string;
  diff_qid : option Z
}.

(** [mis_analyzer] and [diff_est], by the methods that the handler calls. *)
Record App : Type := {
  similarity : string -> string -> result float;
  predict_label : string -> option Z -> result Prediction;
  suggest_guidance : string -> string -> string -> string -> result string;
  estimate : string -> option Z -> result DifficultyEstimate
}.

Record Similarity : Type := {
  user_vs_ideal : float;
  question_vs_ideal : float
}.

Record Charts : Type := {
  pie : list (string * float);
  bars : list (string * float)
}.

Record AnalysisResult : Type := {
  res_question_text : string;
  res_ideal_answer_text : string;
  res_user_answer_text : string;
  res_similarity : Similarity;
  res_misconception : Prediction;
  res_difficulty : DifficultyEstimate;
  answer_score : float;
  guidance : string;
  charts : Charts
}.

(** Step 4 of [analyze_freeform], first half: the local [mis_risk]. *)
Definition mis_risk_of (mis_pred : Prediction) : float :=
  let mis_risk :=
    if is_noise_or_misc (pred_label mis_pred)
    then (1.0 - get (pred_confidence mis_pred) 0.5)%float
    else get (pred_risk mis_pred) 0.4%float in
  (* normalize risk *)
  let mis_risk := Binary64.max 0.0 (Binary64.min 1.0 mis_risk) in
  mis_risk.

(** The body of the [try] block of [analyze_freeform]. *)
Definition analyze_freeform_body (app : App) (b : AnalyzeBody)
  : result AnalysisResult :=
  (* 1) similarities *)
  sim_ui_vs_ideal <-
    similarity app (user_answer_text b) (ideal_answer_text b) ;;
  sim_qi <- similarity app (question_text b) (ideal_answer_text b) ;;
  (* 2) misconception prediction *)
  mis_pred <- predict_label app (user_answer_text b) (qid b) ;;
  (* 3) question difficulty *)
  diff <- estimate app (question_text b) (qid b) ;;
  (* 4) overall answer quality score *)
  let mis_risk := mis_risk_of mis_pred in
  let score := (0.65 * sim_ui_vs_ideal + 0.35 * (1.0 - mis_risk))%float in
  let score := Binary64.round score 3 in
  (* 5) guidance *)
  guidance <-
    suggest_guidance app (question_text b) (ideal_answer_text b)
      (user_answer_text b) (get (pred_label mis_pred) "noise") ;;
  (* 6) chart-ready payloads *)
  let pie :=
    [ ("Matches Ideal", Binary64.round sim_ui_vs_ideal 3);
      ("Gaps vs Ideal",
       Binary64.round
         (Binary64.max 0.0 (1.0 - sim_ui_vs_ideal - 0.15)%float) 3);
      ("Misconception Risk",
       Binary64.round (Binary64.min 0.4 mis_risk) 3) ] in
  let bars :=
    [ ("User vs Ideal", Binary64.round sim_ui_vs_ideal 3);
      ("Question vs Ideal", Binary64.round sim_qi 3);
      ("Difficulty (0 easy–1 hard)",
       Binary64.round (difficulty_norm diff) 3) ] in
  (* final payload *)
  Ok {| res_question_text := question_text b;
        res_ideal_answer_text := ideal_answer_text b;
        res_user_answer_text := user_answer_text b;
        res_similarity :=
          {| user_vs_ideal := Binary64.round sim_ui_vs_ideal 3;
             question_vs_ideal := Binary64.round sim_qi 3 |};
        res_misconception := mis_pred;
        res_difficulty := diff;
        answer_score := score;
        guidance := guidance;
        charts := {| pie := pie; bars := bars |} |}.

Definition analyze_freeform (app : App) (b : AnalyzeBody)
  : response AnalysisResult :=
  match analyze_freeform_body app b with
  | Ok r => Json r
  | Raise e => HTTPException 500 ("Analysis failed: " ++ exn_msg e)%string
  end.

(** [POST /api/analyze/freeform]: the schema check, then the handler. *)
Definition post_analyze_freeform (app : App) (b : AnalyzeBody)
  : response AnalysisResult :=
  if AnalyzeBody_valid b then analyze_freeform app b
  else RequestValidationError.


End AnalyzeBinary64.

(* ===================================================================== *)
(** * The specification's wording, for comparison with the code *)

Module Spec.

(** "Clamp to [0,1]". *)
Definition clamp01 (x : Q) : Q :=
  if Num.ltb x 0 then 0 else if Num.ltb 1 x then 1 else x.

(** "if predicted label is exactly "noise" or "misc", risk = 1 - confidence;
    otherwise use the prediction's own risk field (default 0.4 if absent).
    Clamp to [0,1]." *)
Definition mis_risk (p : Prediction) : Q :=
  clamp01
    (if decide (pred_label p = Some "noise" \/ pred_label p = Some "misc")
     then 1 - get (pred_confidence p) 0.5
     else match pred_risk p with
          | Some r => r
          | None => 0.4
          end).

(** The keyword set of the guidance rule as the specification lists it. *)
Definition guidance_keywords : list string :=
  ["epsilon"; "dfa"; "nfa"; "regex"; "star"; "union"; "concat"; "equiv"].

(** The guidance string as the specification describes it, for a
    user-vs-ideal similarity [sim_ui] and a label, over a keyword set. *)
Definition guidance (keywords : list string) (sim_ui : Q) (mis_label : string)
  : string :=
  String.concat " "
    ([tip_start]
     ++ (if Num.ltb sim_ui 0.65 then [tip_definition] else [])
     ++ (if existsb (fun k => Str.contains k (Str.lower mis_label)) keywords
         then [tip_contrast] else [])
     ++ [tip_finish]).

End Spec.

(* ===================================================================== *)
(** * Definitions used in the statements *)

(** The fixed answer of the degraded mode. *)
Definition fallback_prediction : Prediction :=
  {| pred_label := Some "unknown";
     pred_confidence := Some 0.5;
     pred_risk := Some 0.4;
     pred_explanation := Some "No classifier artifact found." |}.

(** The classifier is a probabilistic one: what [predict_proba] returns are
    probabilities. *)
Definition proba_ok (c : Classifier) : Prop :=
  forall v proba,
    predict_proba c v = Ok proba -> Forall (fun x => 0 <= x <= 1) proba.

(** The heuristic risk before the out-of-distribution check. *)
Definition heuristic_risk (label : string) (conf : Q) : Q :=
  if existsb (fun k => Str.contains k (Str.lower label)) risk_keywords
  then Num.max 0.4 (1.0 - conf + 0.4)
  else 0.2.

(** The out-of-distribution test of [predict_label]. *)
Definition is_unseen (self : MisconceptionAnalyzer) (qid : option Z)
    (label : string) : bool :=
  match qid with
  | Some q =>
      match label_ref self !! q with
      | Some known => negb (Str.mem label known)
      | None => false
      end
  | None => false
  end.

(** Whether a text starts, or ends, with a whitespace character. *)
Definition first_is_space (s : string) : bool :=
  match s with
  | EmptyString => false
  | String c _ => Str.isspace c
  end.

Fixpoint last_is_space (s : string) : bool :=
  match s with
  | EmptyString => false
  | String c EmptyString => Str.isspace c
  | String _ t => last_is_space t
  end.

(** Every whitespace character is a space, and no two of them are adjacent;
    [after_space] says that the previous character was one. *)
Fixpoint single_spaced (after_space : bool) (s : string) : bool :=
  match s with
  | EmptyString => true
  | String c t =>
      if Str.isspace c
      then Ascii.eqb c " " && negb after_space && single_spaced true t
      else single_spaced false t
  end.

(** The characters of a text that are not whitespace, in order. *)
Fixpoint remove_spaces (s : string) : string :=
  match s with
  | EmptyString => EmptyString
  | String c t =>
      if Str.isspace c then remove_spaces t else String c (remove_spaces t)
  end.

(** The squared Euclidean norm of an embedding vector. *)
Definition sum_squares (v : vec) : Q :=
  fold_right (fun x acc => x * x + acc) 0 v.

(** The order of [sorted] on strings: strictly smaller, character by
    character. *)
Definition str_lt (a b : string) : Prop := String.compare a b = Lt.

(** The payload that [analyze_freeform] assembles from the two similarities,
    the prediction, the difficulty estimate and the guidance string. *)
Definition analysis_result (b : AnalyzeBody) (sim_ui_vs_ideal sim_qi : Q)
    (mis_pred : Prediction) (diff : DifficultyEstimate) (guidance : string)
  : AnalysisResult :=
  let mis_risk := mis_risk_of mis_pred in
  {| res_question_text := question_text b;
     res_ideal_answer_text := ideal_answer_text b;
     res_user_answer_text := user_answer_text b;
     res_similarity :=
       {| user_vs_ideal := Num.round sim_ui_vs_ideal 3;
          question_vs_ideal := Num.round sim_qi 3 |};
     res_misconception := mis_pred;
     res_difficulty := diff;
     answer_score :=
       Num.round (0.65 * sim_ui_vs_ideal + 0.35 * (1.0 - mis_risk)) 3;
     guidance := guidance;
     charts :=
       {| pie :=
            [ ("Matches Ideal", Num.round sim_ui_vs_ideal 3);
              ("Gaps vs Ideal",
               Num.round (Num.max 0.0 (1.0 - sim_ui_vs_ideal - 0.15)) 3);
              ("Misconception Risk", Num.round (Num.min 0.4 mis_risk) 3) ];
          bars :=
            [ ("User vs Ideal", Num.round sim_ui_vs_ideal 3);
              ("Question vs Ideal", Num.round sim_qi 3);
              ("Difficulty (0 easy–1 hard)",
               Num.round (difficulty_norm diff) 3) ] |} |}.

(** The four texts that [suggest_guidance] can return. *)
Definition guidance_texts : list string :=
  [ String.concat " " [tip_start; tip_finish];
    String.concat " " [tip_start; tip_definition; tip_finish];
    String.concat " " [tip_start; tip_contrast; tip_finish];
    String.concat " " [tip_start; tip_definition; tip_contrast; tip_finish] ].

(** [get_encoder] of [models/text.py]: the module-level [_ENCODER] is the
    state, [SentenceTransformer] the constructor of the library; the call
    returns the encoder and the new state. *)
Definition get_encoder (SentenceTransformer : string -> Encoder)
    (model_name : string) (_ENCODER : option Encoder)
  : Encoder * option Encoder :=
  match _ENCODER with
  | None =>
      let e := SentenceTransformer model_name in
      (e, Some e)
  | Some e => (e, Some e)
  end.

(* ===================================================================== *)
(** * A small concrete deployment, for running the definitions *)

Module Demo.

Definition question : string := "Explain photosynthesis.".
Definition ideal : string :=
  "Plants convert light into chemical energy producing glucose and oxygen.".
Definition user : string :=
  "Plants make food from sunlight and release oxygen.".

(** A two-dimensional encoder with unit vectors; the user answer is at
    cosine 0.8 of the ideal answer. *)
Definition enc : Encoder :=
  fun t =>
    if String.eqb t ideal then [1; 0]
    else if String.eqb t user then [0.8; 0.6]
    else [0; 1].

Definition est : string -> option Z -> result DifficultyEstimate :=
  fun _ q => Ok {| difficulty_norm := 0.5; bucket := "medium"; diff_qid := q |}.

(** A classifier over three classes. *)
Definition clf3 (proba : list Q) : Classifier :=
  {| predict_proba := fun _ => Ok proba;
     classes_ := ["noise"; "partial"; "C"];
     predict := fun _ => Ok "partial" |}.

(** A label table that knows the labels A and B for question 7. *)
Definition labels : list (Z * string) := [(7%Z, "B"); (7%Z, "A"); (7%Z, "B")].

Definition dir (c : option Classifier) : ArtifactsDir :=
  {| misconception_clf_joblib := c;
     cluster_labels_parquet := Some labels;
     difficulty_table := None |}.

Definition app (c : option Classifier) : App := startup (dir c) enc est.

Definition body (q : option Z) : AnalyzeBody :=
  {| question_text := question;
     ideal_answer_text := ideal;
     user_answer_text := user;
     qid := q |}.

(** A classifier without [predict_proba]: only the hard prediction works. *)
Definition clf_hard (label : string) : Classifier :=
  {| predict_proba := fun _ => Raise (Exception "predict_proba is not available");
     classes_ := [];
     predict := fun _ => Ok label |}.

(** A classifier on which both methods raise. *)
Definition clf_broken : Classifier :=
  {| predict_proba := fun _ => Raise (Exception "predict_proba is not available");
     classes_ := [];
     predict := fun _ => Raise (Exception "X has 2 features, but 384 expected") |}.

(** An estimator that raises. *)
Definition est_broken : string -> option Z -> result DifficultyEstimate :=
  fun _ _ => Raise (Exception "difficulty model not fitted").

(** A prediction and an analyzer over binary64 with a given user-vs-ideal
    similarity and a given risk. *)
Definition pred64 (risk : PrimFloat.float) : AnalyzeBinary64.Prediction :=
  {| AnalyzeBinary64.pred_label := Some "partial";
     AnalyzeBinary64.pred_confidence := Some PrimFloat.one;
     AnalyzeBinary64.pred_risk := Some risk;
     AnalyzeBinary64.pred_explanation := None |}.

Definition app64 (sim_ui risk : PrimFloat.float) : AnalyzeBinary64.App :=
  {| AnalyzeBinary64.similarity :=
       fun a _ => Ok (if String.eqb a user then sim_ui else PrimFloat.zero);
     AnalyzeBinary64.predict_label := fun _ _ => Ok (pred64 risk);
     AnalyzeBinary64.suggest_guidance := fun _ _ _ _ => Ok tip_start;
     AnalyzeBinary64.estimate :=
       fun _ q =>
         Ok {| AnalyzeBinary64.difficulty_norm := PrimFloat.one;
               AnalyzeBinary64.bucket := "hard";
               AnalyzeBinary64.diff_qid := q |} |}.

(** A request body of blanks. *)
Definition blank_body : AnalyzeBody :=
  {| question_text := "   ";
     ideal_answer_text := "   ";
     user_answer_text := " ";
     qid := None |}.

End Demo.

Example clean_text_ex :
  clean_text "  a   b	c  " = "a b c".
Proof. reflexivity. Qed.

Example lower_ex :
  Str.lower "NFA vs DFA" = "nfa vs dfa"
  /\ Str.lower "Ε-closure" = "ε-closure"
  /\ Str.lower "İ" = "i̇"
  /\ Str.lower "ε-Übergang" = "ε-Übergang".
Proof. repeat split. Qed.

Example len_ex :
  Str.len "εε" = 2%nat /\ String.length "εε" = 4%nat
  /\ Str.len "naïve" = 5%nat /\ Str.len "" = 0%nat.
Proof. repeat split. Qed.

(** A question of two Greek letters has four bytes and two characters: the
    schema rejects it. *)
Example short_greek_question_rejected :
  AnalyzeBody_valid
    {| question_text := "εε";
       ideal_answer_text := Demo.ideal;
       user_answer_text := Demo.user;
       qid := None |} = false.
Proof. reflexivity. Qed.

(** A label with the capital epsilon gets the contrast tip. *)
Example capital_epsilon_label :
  suggest_guidance (mis_analyzer (Demo.app None)) Demo.question Demo.ideal
    Demo.user "Ε-closure"
  = Ok (String.concat " " [tip_start; tip_contrast; tip_finish]).
Proof. vm_compute. reflexivity. Qed.

Example demo_label_ref :
  label_ref (mis_analyzer (Demo.app None)) !! 7%Z = Some ["A"; "B"].
Proof. vm_compute. reflexivity. Qed.

Example demo_similarity :
  similarity (mis_analyzer (Demo.app None)) Demo.user Demo.ideal
  = Ok (8000 # 10000).
Proof. vm_compute. reflexivity. Qed.

Example demo_predict_partial :
  predict_label (mis_analyzer (Demo.app (Some (Demo.clf3 [0.1; 0.9; 0.0]))))
    Demo.user None
  = Ok {| pred_label := Some "partial";
          pred_confidence := Some (900 # 1000);
          pred_risk := Some (200 # 1000);
          pred_explanation := None |}.
Proof. vm_compute. reflexivity. Qed.

Example demo_predict_unseen :
  predict_label (mis_analyzer (Demo.app (Some (Demo.clf3 [0.1; 0.2; 0.7]))))
    Demo.user (Some 7%Z)
  = Ok {| pred_label := Some "C (unseen@qid)";
          pred_confidence := Some (700 # 1000);
          pred_risk := Some (500 # 1000);
          pred_explanation := None |}.
Proof. vm_compute. reflexivity. Qed.

(* ===================================================================== *)
(** * Facts about numbers *)

Section NumFacts.

Lemma ltb_lt (x y : Q) : Num.ltb x y = true <-> x < y.
Proof.
  unfold Num.ltb. rewrite negb_true_iff, <- not_true_iff_false, Qle_bool_iff.
  split; [apply Qnot_le_lt | apply Qlt_not_le].
Qed.

Lemma ltb_ge (x y : Q) : Num.ltb x y = false <-> y <= x.
Proof.
  unfold Num.ltb. rewrite negb_false_iff. apply Qle_bool_iff.
Qed.

Lemma round_half_even_bounds (q : Q) :
  (Qfloor q <= Num.round_half_even q <= Qfloor q + 1)%Z.
Proof.
  unfold Num.round_half_even.
  destruct (q - inject_Z (Qfloor q) ?= 1 # 2); [destruct (Z.even _) | |]; lia.
Qed.

(** The rounded integer is a nearest one. *)
Lemma round_half_even_nearest (q : Q) :
  q - (1 # 2) <= inject_Z (Num.round_half_even q) <= q + (1 # 2).
Proof.
  pose proof (Qfloor_le q) as Hlo. pose proof (Qlt_floor q) as Hhi.
  rewrite inject_Z_plus in Hhi. change (inject_Z 1) with 1 in Hhi.
  unfold Num.round_half_even.
  destruct (q - inject_Z (Qfloor q) ?= 1 # 2) eqn:C;
    [ apply Qeq_alt in C | apply Qlt_alt in C | apply Qgt_alt in C ].
  - destruct (Z.even (Qfloor q)).
    + split; lra.
    + rewrite inject_Z_plus. change (inject_Z 1) with 1. split; lra.
  - split; lra.
  - rewrite inject_Z_plus. change (inject_Z 1) with 1. split; lra.
Qed.

Example round_ties_to_even :
  Num.round (1 # 2) 0 == 0 /\ Num.round (3 # 2) 0 == 2
  /\ Num.round (5 # 2) 0 == 2 /\ Num.round (1 # 8) 2 == 0.12.
Proof. repeat split. Qed.

Lemma round_half_even_mono (x y : Q) :
  x <= y -> (Num.round_half_even x <= Num.round_half_even y)%Z.
Proof.
  intros Hxy.
  pose proof (Qfloor_resp_le x y Hxy) as Hf.
  destruct (Z.eq_dec (Qfloor x) (Qfloor y)) as [E | NE].
  - unfold Num.round_half_even. rewrite <- E.
    destruct (x - inject_Z (Qfloor x) ?= 1 # 2) eqn:Cx;
      destruct (y - inject_Z (Qfloor x) ?= 1 # 2) eqn:Cy;
      try (destruct (Z.even (Qfloor x)); lia); try lia; exfalso;
      repeat match goal with
        | H : (_ ?= _) = Eq |- _ => apply Qeq_alt in H
        | H : (_ ?= _) = Lt |- _ => apply Qlt_alt in H
        | H : (_ ?= _) = Gt |- _ => apply Qgt_alt in H
        end.
    + apply (Qlt_irrefl (1 # 2)). rewrite <- Cx at 1.
      apply Qle_lt_trans with (y - inject_Z (Qfloor x)); [| exact Cy].
      apply Qplus_le_compat; [exact Hxy | apply Qle_refl].
    + apply (Qlt_irrefl (1 # 2)).
      apply Qlt_le_trans with (x - inject_Z (Qfloor x)); [exact Cx |].
      apply Qle_trans with (y - inject_Z (Qfloor x)).
      * apply Qplus_le_compat; [exact Hxy | apply Qle_refl].
      * rewrite Cy. apply Qle_refl.
    + apply (Qlt_irrefl (1 # 2)).
      apply Qlt_le_trans with (x - inject_Z (Qfloor x)); [exact Cx |].
      apply Qle_trans with (y - inject_Z (Qfloor x)).
      * apply Qplus_le_compat; [exact Hxy | apply Qle_refl].
      * apply Qlt_le_weak, Cy.
  - pose proof (round_half_even_bounds x). pose proof (round_half_even_bounds y).
    lia.
Qed.

Lemma round_mono (x y : Q) (n : nat) :
  x <= y -> Num.round x n <= Num.round y n.
Proof.
  intros Hxy. unfold Num.round, Qle. simpl Qnum. simpl Qden.
  apply Z.mul_le_mono_nonneg_r; [lia |].
  apply round_half_even_mono.
  apply Qmult_le_compat_r; [exact Hxy |].
  change 0 with (inject_Z 0). rewrite <- Zle_Qle. apply Z.pow_nonneg. lia.
Qed.

Lemma round_proper (x y : Q) (n : nat) :
  x == y -> Num.round x n == Num.round y n.
Proof.
  intros E. apply Qle_antisym; apply round_mono; rewrite E; apply Qle_refl.
Qed.

(** Rounding keeps a value on the side of a bound that rounding leaves
    unchanged. *)
Lemma round_ge (b x : Q) (n : nat) :
  Num.round b n == b -> b <= x -> b <= Num.round x n.
Proof. intros Hb H. rewrite <- Hb. apply round_mono, H. Qed.

Lemma round_le (b x : Q) (n : nat) :
  Num.round b n == b -> x <= b -> Num.round x n <= b.
Proof. intros Hb H. rewrite <- Hb. apply round_mono, H. Qed.

(** Rounding to three decimals moves a value by at most 0.0005. *)
Lemma round3_nearest (x : Q) :
  Num.round x 3 - (1 # 2000) <= x <= Num.round x 3 + (1 # 2000).
Proof.
  unfold Num.round.
  change (10 ^ Z.of_nat 3)%Z with 1000%Z.
  change (Z.to_pos 1000) with 1000%positive.
  destruct (round_half_even_nearest (x * inject_Z 1000)) as [H0 H1].
  rewrite (Qmake_Qdiv (Num.round_half_even (x * inject_Z 1000)) 1000).
  set (y := inject_Z (Num.round_half_even (x * inject_Z 1000))) in *.
  change (inject_Z 1000) with 1000 in *.
  change (inject_Z (Z.pos 1000)) with 1000.
  clearbody y. unfold Qdiv. change (/ 1000) with (1 # 1000).
  split; lra.
Qed.

Lemma max_ge_l (a b : Q) : a <= Num.max a b.
Proof. apply Q.le_max_l. Qed.

Lemma max_ge_r (a b : Q) : b <= Num.max a b.
Proof. apply Q.le_max_r. Qed.

Lemma max_le (a b c : Q) : a <= c -> b <= c -> Num.max a b <= c.
Proof. apply Q.max_lub. Qed.

Lemma min_le_l (a b : Q) : Num.min a b <= a.
Proof. apply Q.le_min_l. Qed.

End NumFacts.

(* ===================================================================== *)
(** * Facts about strings *)

Section StrFacts.

Lemma mem_In (x : string) (xs : list string) :
  Str.mem x xs = true <-> In x xs.
Proof.
  unfold Str.mem. rewrite existsb_exists. split.
  - intros (y & Hy & E). apply String.eqb_eq in E. now subst.
  - intros H. exists x. split; [exact H | apply String.eqb_refl].
Qed.

Lemma mem_not_In (x : string) (xs : list string) :
  ~ In x xs -> Str.mem x xs = false.
Proof.
  intros H. apply not_true_iff_false. now rewrite mem_In.
Qed.

Lemma prefix_iff (k s : string) :
  String.prefix k s = true <-> exists post, s = (k ++ post)%string.
Proof.
  revert s. induction k as [| c k IH]; intros s.
  - destruct s; simpl; split; eauto.
  - destruct s as [| d s]; simpl.
    + split; [discriminate | intros (post & E); discriminate].
    + destruct (ascii_dec c d) as [-> | NE].
      * rewrite IH. split; intros (post & E); exists post.
        -- now rewrite E.
        -- now injection E.
      * split; [discriminate |].
        intros (post & E). injection E as E1 E2. now subst.
Qed.

Lemma contains_iff (k s : string) :
  Str.contains k s = true
  <-> exists pre post, s = (pre ++ k ++ post)%string.
Proof.
  induction s as [| c s IH].
  - cbn [Str.contains]. rewrite orb_false_r, prefix_iff. split.
    + intros (post & E). now exists ""%string, post.
    + intros (pre & post & E). destruct pre; [now exists post | discriminate].
  - cbn [Str.contains]. rewrite orb_true_iff, IH, prefix_iff. split.
    + intros [(post & E) | (pre & post & E)].
      * now exists ""%string, post.
      * exists (String c pre), post. simpl. now rewrite E.
    + intros (pre & post & E). destruct pre as [| d pre].
      * left. now exists post.
      * right. injection E as _ E. now exists pre, post.
Qed.

Lemma append_cons (x : ascii) (a b : string) :
  (String x a ++ b)%string = String x (a ++ b).
Proof. reflexivity. Qed.

Lemma append_assoc (a b c : string) :
  ((a ++ b) ++ c)%string = (a ++ b ++ c)%string.
Proof.
  induction a as [| x a IH]; [reflexivity |].
  now rewrite !append_cons, IH.
Qed.

Lemma append_empty_r (a : string) : (a ++ "")%string = a.
Proof.
  induction a as [| x a IH]; [reflexivity |].
  now rewrite append_cons, IH.
Qed.

Lemma rev_append_spec (s acc : string) :
  Str.rev_append s acc = (Str.rev s ++ acc)%string.
Proof.
  unfold Str.rev. revert acc.
  induction s as [| c s IH]; intros acc; simpl; [reflexivity |].
  rewrite (IH (String c EmptyString)), IH.
  now rewrite append_assoc.
Qed.

Lemma rev_app (a b : string) :
  Str.rev (a ++ b) = (Str.rev b ++ Str.rev a)%string.
Proof.
  induction a as [| c a IH].
  - simpl. now rewrite append_empty_r.
  - unfold Str.rev at 1 3. simpl. rewrite !rev_append_spec, IH.
    now rewrite append_assoc.
Qed.

(** A label to which a marker was appended ends with the marker. *)
Lemma endswith_app (l suffix : string) :
  Str.endswith (l ++ suffix) suffix = true.
Proof.
  unfold Str.endswith. rewrite rev_app. apply prefix_iff. now eexists.
Qed.

End StrFacts.

(* ===================================================================== *)
(** * Loading and the health endpoint *)

Section Loading.

Variable enc : Encoder.

(** [_load] sets the flag on every path. *)
Lemma load_sets_loaded (self : MisconceptionAnalyzer) (art : ArtifactsDir) :
  loaded (_load self art) = true.
Proof. reflexivity. Qed.

Lemma init_clf (art : ArtifactsDir) :
  clf (MisconceptionAnalyzer_init art enc) = misconception_clf_joblib art.
Proof.
  unfold MisconceptionAnalyzer_init, _load. cbn [clf].
  now destruct (misconception_clf_joblib art).
Qed.

Lemma init_label_ref_no_table (art : ArtifactsDir) :
  cluster_labels_parquet art = None ->
  label_ref (MisconceptionAnalyzer_init art enc) = ∅.
Proof.
  intros H. unfold MisconceptionAnalyzer_init, _load. cbn [label_ref].
  now rewrite H.
Qed.

End Loading.

(** [sorted(set(xs))] has the elements of [xs]. *)
Lemma insert_sorted_In (x y : string) (xs : list string) :
  In y (Str.insert_sorted x xs) <-> y = x \/ In y xs.
Proof.
  induction xs as [| z t IH]; simpl.
  - intuition.
  - destruct (String.compare x z) eqn:C.
    + apply String.compare_eq_iff in C. subst z. simpl. intuition.
    + simpl. intuition.
    + simpl. rewrite IH. intuition.
Qed.

Lemma sorted_set_In (y : string) (xs : list string) :
  In y (Str.sorted_set xs) <-> In y xs.
Proof.
  unfold Str.sorted_set. induction xs as [| x t IH]; simpl; [tauto |].
  rewrite insert_sorted_In, IH. intuition.
Qed.

Lemma group_In (rows : list (Z * string)) (q : Z) (l : string) :
  In l (group rows q) <-> In (q, l) rows.
Proof.
  unfold group. rewrite in_map_iff. split.
  - intros ([q' l'] & E & H). simpl in E. subst l'.
    apply List.filter_In in H as [H Hq]. simpl in Hq.
    apply Z.eqb_eq in Hq. now subst q'.
  - intros H. exists (q, l). split; [reflexivity |].
    apply List.filter_In. split; [exact H | apply Z.eqb_refl].
Qed.

Lemma fold_insert_lookup
    (f : Z -> list string) (rows : list (Z * string))
    (m : gmap Z (list string)) (q : Z) :
  fold_left (fun m r => <[fst r := f (fst r)]> m) rows m !! q
  = if in_dec Z.eq_dec q (map fst rows) then Some (f q) else m !! q.
Proof.
  revert m. induction rows as [| [k l] rows IH]; intros m.
  - reflexivity.
  - cbn [fold_left fst]. rewrite IH.
    destruct (in_dec Z.eq_dec q (map fst rows)) as [Hin | Hnin];
      destruct (in_dec Z.eq_dec q (map fst ((k, l) :: rows))) as [Hin' | Hnin'];
      try reflexivity.
    + exfalso. apply Hnin'. now right.
    + destruct Hin' as [E | Hin']; [| contradiction].
      simpl in E. subst k. apply lookup_insert_eq.
    + apply lookup_insert_ne. intros E. apply Hnin'. now left.
Qed.

(** X16: after loading a label table, the reference set of a question that
    the table mentions holds exactly the labels of its rows. *)
Theorem init_label_ref_lookup
    (enc : Encoder) (art : ArtifactsDir) (df : list (Z * string)) (q : Z)
    (l0 : string) :
  cluster_labels_parquet art = Some df ->
  In (q, l0) df ->
  exists known,
    label_ref (MisconceptionAnalyzer_init art enc) !! q = Some known
    /\ forall l, In l known <-> In (q, l) df.
Proof.
  intros Hdf Hin. unfold MisconceptionAnalyzer_init, _load. cbn [label_ref].
  rewrite Hdf.
  rewrite (fold_insert_lookup (fun k => Str.sorted_set (group df k))).
  destruct (in_dec Z.eq_dec q (map fst df)) as [_ | Hn].
  - eexists. split; [reflexivity |].
    intros l. now rewrite sorted_set_In, group_In.
  - exfalso. apply Hn. apply in_map_iff. now exists (q, l0).
Qed.

(** C3, as amended: on an empty artifacts directory the health endpoint
    answers [ok: true], [artifacts: true] and [difficulty_items: 0]: [_load]
    sets the [loaded] flag whether or not it found a file, and the item
    count of the estimator is 0 when no table was loaded. *)
Theorem health_empty_dir
    (enc : Encoder) (est : string -> option Z -> result DifficultyEstimate) :
  health (startup empty_dir enc est)
  = {| ok := true; artifacts := true; difficulty_items := 0 |}.
Proof. reflexivity. Qed.

(** C3 as stated fails: with an empty directory [artifacts] is not
    [false]. *)
Lemma health_empty_dir_artifacts_not_false :
  ~ (artifacts (health (startup empty_dir Demo.enc Demo.est)) = false
     /\ difficulty_items (health (startup empty_dir Demo.enc Demo.est)) = 0%nat).
Proof. intros [H _]. discriminate H. Qed.

(** The flag carries no information: it is [true] for every directory. *)
Lemma health_artifacts_always_true
    (art : ArtifactsDir) (enc : Encoder)
    (est : string -> option Z -> result DifficultyEstimate) :
  artifacts (health (startup art enc est)) = true.
Proof. reflexivity. Qed.

(* ===================================================================== *)
(** * The degraded mode of [predict_label] *)

Lemma predict_label_no_clf
    (self : MisconceptionAnalyzer) (text : string) (qid : option Z) :
  clf self = None -> predict_label self text qid = Ok fallback_prediction.
Proof.
  intros H. unfold predict_label. cbn [embed map getitem nth_error bind].
  now rewrite H.
Qed.

(** C5: an analyzer built from an artifacts directory without the classifier
    file answers every text and every optional qid with the fixed fallback:
    label "unknown", confidence 0.5, risk 0.4 and the explanatory note. *)
Theorem predict_label_missing_classifier
    (art : ArtifactsDir) (enc : Encoder) (text : string) (qid : option Z) :
  misconception_clf_joblib art = None ->
  predict_label (MisconceptionAnalyzer_init art enc) text qid
  = Ok {| pred_label := Some "unknown";
          pred_confidence := Some 0.5;
          pred_risk := Some 0.4;
          pred_explanation := Some "No classifier artifact found." |}.
Proof.
  intros H. apply predict_label_no_clf. now rewrite init_clf.
Qed.

Lemma predict_label_missing_classifier_witness :
  misconception_clf_joblib (Demo.dir None) = None
  /\ predict_label (MisconceptionAnalyzer_init (Demo.dir None) Demo.enc)
       Demo.user (Some 7%Z)
     = Ok {| pred_label := Some "unknown";
             pred_confidence := Some 0.5;
             pred_risk := Some 0.4;
             pred_explanation := Some "No classifier artifact found." |}.
Proof.
  split; [reflexivity |].
  apply (predict_label_missing_classifier (Demo.dir None) Demo.enc Demo.user
           (Some 7%Z)).
  reflexivity.
Defined.

(** C10: without a classifier the out-of-distribution annotation is never
    applied.  Even when a qid is supplied, a reference label set exists for
    it and "unknown" is not in that set, the label is exactly "unknown",
    it does not end with the unseen marker, and the risk is exactly 0.4. *)
Theorem fallback_before_unseen_check
    (self : MisconceptionAnalyzer) (text : string) (q : Z)
    (known : list string) :
  clf self = None ->
  label_ref self !! q = Some known ->
  ~ In "unknown" known ->
  exists p,
    predict_label self text (Some q) = Ok p
    /\ pred_label p = Some "unknown"
    /\ Str.endswith "unknown" unseen_marker = false
    /\ pred_risk p = Some 0.4.
Proof.
  intros H _ _. exists fallback_prediction.
  split; [now apply predict_label_no_clf |].
  repeat split; reflexivity.
Qed.

Lemma fallback_before_unseen_check_witness :
  exists p,
    predict_label (mis_analyzer (Demo.app None)) Demo.user (Some 7%Z) = Ok p
    /\ pred_label p = Some "unknown"
    /\ Str.endswith "unknown" unseen_marker = false
    /\ pred_risk p = Some 0.4.
Proof.
  apply (fallback_before_unseen_check (mis_analyzer (Demo.app None)) Demo.user
           7%Z ["A"; "B"]).
  - reflexivity.
  - vm_compute. reflexivity.
  - simpl. intros [H | [H | []]]; discriminate H.
Defined.

(* ===================================================================== *)
(** * [predict_label] with a classifier *)

Section WithClassifier.

Variable self : MisconceptionAnalyzer.
Variable c : Classifier.
Hypothesis clf_loaded : clf self = Some c.

Lemma classify_inv (v : vec) (label : string) (conf : Q) :
  classify c v = Ok (label, conf) ->
  (exists proba idx,
      predict_proba c v = Ok proba
      /\ nth_error (classes_ c) idx = Some label
      /\ nth_error proba idx = Some conf)
  \/ (predict c v = Ok label /\ conf = 0.6).
Proof.
  unfold classify, try_except, bind, getitem.
  destruct (predict_proba c v) as [proba | e1] eqn:Ep.
  - destruct (argmax proba) as [idx | e2].
    + destruct (nth_error (classes_ c) idx) as [l |] eqn:El.
      * destruct (nth_error proba idx) as [x |] eqn:Ex.
        -- intros H. injection H as -> ->. left. now exists proba, idx.
        -- destruct (predict c v); [| discriminate].
           intros H. injection H as -> <-. now right.
      * destruct (predict c v); [| discriminate].
        intros H. injection H as -> <-. now right.
    + destruct (predict c v); [| discriminate].
      intros H. injection H as -> <-. now right.
  - destruct (predict c v); [| discriminate].
    intros H. injection H as -> <-. now right.
Qed.

Lemma classify_conf_range (v : vec) (label : string) (conf : Q) :
  proba_ok c -> classify c v = Ok (label, conf) -> 0 <= conf <= 1.
Proof.
  intros Hok H. apply classify_inv in H.
  destruct H as [(proba & idx & Ep & _ & Ex) | [_ ->]].
  - apply Hok in Ep. rewrite List.Forall_forall in Ep. apply Ep.
    eapply nth_error_In, Ex.
  - split; lra.
Qed.

(** What [predict_label] returns once the classifier has answered. *)
Lemma predict_label_classified
    (text : string) (qid : option Z) (label : string) (conf : Q) :
  classify c (encoder self (clean_text text)) = Ok (label, conf) ->
  predict_label self text qid
  = Ok {| pred_label :=
            Some (if is_unseen self qid label
                  then (label ++ unseen_marker)%string else label);
          pred_confidence := Some (Num.round conf 3);
          pred_risk :=
            Some (Num.round
                    (if is_unseen self qid label
                     then Num.max (heuristic_risk label conf) 0.5
                     else heuristic_risk label conf) 3);
          pred_explanation := None |}.
Proof.
  intros H. unfold predict_label.
  cbn [embed map getitem nth_error bind]. rewrite clf_loaded, H.
  reflexivity.
Qed.

(** When the classifier raises on both paths, so does [predict_label]. *)
Lemma predict_label_raises (text : string) (qid : option Z) (e : exn) :
  classify c (encoder self (clean_text text)) = Raise e ->
  predict_label self text qid = Raise e.
Proof.
  intros H. unfold predict_label.
  cbn [embed map getitem nth_error bind]. now rewrite clf_loaded, H.
Qed.

Lemma heuristic_risk_range (label : string) (conf : Q) :
  0 <= conf <= 1 -> 0.2 <= heuristic_risk label conf <= 1.4.
Proof.
  intros [H0 H1]. unfold heuristic_risk.
  destruct (existsb _ _).
  - split.
    + apply Qle_trans with 0.4; [lra | apply max_ge_l].
    + apply max_le; lra.
  - split; lra.
Qed.

End WithClassifier.

Lemma is_unseen_true
    (self : MisconceptionAnalyzer) (q : Z) (known : list string)
    (label : string) :
  label_ref self !! q = Some known -> ~ In label known ->
  is_unseen self (Some q) label = true.
Proof.
  intros Hk Hn. unfold is_unseen. rewrite Hk.
  now rewrite (mem_not_In _ _ Hn).
Qed.

(** C6: with a classifier loaded, a qid supplied, a reference label set
    known for it and the classifier's label outside that set, the returned
    label is the classifier's label followed by the unseen marker (so it ends
    with the marker), and the returned risk is at least 0.5. *)
Theorem unseen_label_marked
    (self : MisconceptionAnalyzer) (c : Classifier) (text : string) (q : Z)
    (known : list string) (label : string) (conf : Q) :
  clf self = Some c ->
  label_ref self !! q = Some known ->
  classify c (encoder self (clean_text text)) = Ok (label, conf) ->
  ~ In label known ->
  exists p risk,
    predict_label self text (Some q) = Ok p
    /\ pred_label p = Some (label ++ unseen_marker)%string
    /\ Str.endswith (label ++ unseen_marker) unseen_marker = true
    /\ pred_risk p = Some risk
    /\ 0.5 <= risk.
Proof.
  intros Hc Hk Hl Hn.
  rewrite (predict_label_classified self c Hc text (Some q) label conf Hl).
  rewrite (is_unseen_true self q known label Hk Hn).
  eexists _, _. split; [reflexivity |]. cbn [pred_label pred_risk].
  split; [reflexivity |]. split; [apply endswith_app |].
  split; [reflexivity |].
  apply round_ge; [reflexivity | apply max_ge_r].
Qed.

Lemma unseen_label_marked_witness :
  exists p risk,
    predict_label
      (mis_analyzer (Demo.app (Some (Demo.clf3 [0.1; 0.2; 0.7]))))
      Demo.user (Some 7%Z) = Ok p
    /\ pred_label p = Some ("C" ++ unseen_marker)%string
    /\ Str.endswith ("C" ++ unseen_marker) unseen_marker = true
    /\ pred_risk p = Some risk
    /\ 0.5 <= risk.
Proof.
  apply (unseen_label_marked
           (mis_analyzer (Demo.app (Some (Demo.clf3 [0.1; 0.2; 0.7]))))
           (Demo.clf3 [0.1; 0.2; 0.7]) Demo.user 7%Z ["A"; "B"] "C" 0.7).
  - reflexivity.
  - vm_compute. reflexivity.
  - vm_compute. reflexivity.
  - simpl. intros [H | [H | []]]; discriminate H.
Defined.

(** C2, as amended: when the classifier's probabilities lie in [0,1], every
    prediction that [predict_label] returns has a confidence in [0,1] and a
    risk in [0.2, 1.4]. *)
Theorem predict_label_ranges
    (self : MisconceptionAnalyzer) (text : string) (qid : option Z)
    (p : Prediction) :
  (forall c, clf self = Some c -> proba_ok c) ->
  predict_label self text qid = Ok p ->
  exists conf risk,
    pred_confidence p = Some conf
    /\ pred_risk p = Some risk
    /\ 0 <= conf <= 1
    /\ 0.2 <= risk <= 1.4.
Proof.
  intros Hok H.
  destruct (clf self) as [c |] eqn:Hc.
  - destruct (classify c (encoder self (clean_text text)))
      as [[label conf] | e] eqn:Hl.
    + rewrite (predict_label_classified self c Hc text qid label conf Hl) in H.
      injection H as <-. cbn [pred_confidence pred_risk].
      pose proof (classify_conf_range c _ label conf (Hok c eq_refl) Hl)
        as Hconf.
      pose proof (heuristic_risk_range label conf Hconf) as [Hr0 Hr1].
      eexists _, _. split; [reflexivity |]. split; [reflexivity |].
      split; [split |].
      * apply round_ge; [reflexivity | apply Hconf].
      * apply round_le; [reflexivity | apply Hconf].
      * destruct (is_unseen self qid label).
        -- split.
           ++ apply round_ge; [reflexivity |].
              apply Qle_trans with 0.5; [lra | apply max_ge_r].
           ++ apply round_le; [reflexivity |]. apply max_le; [exact Hr1 | lra].
        -- split; [apply round_ge | apply round_le];
             solve [reflexivity | assumption].
    + rewrite (predict_label_raises self c Hc text qid e Hl) in H.
      discriminate H.
  - rewrite (predict_label_no_clf self text qid Hc) in H.
    injection H as <-. exists 0.5, 0.4. cbn.
    repeat split; lra.
Qed.

Lemma demo_clf3_proba_ok (proba : list Q) :
  Forall (fun x => 0 <= x <= 1) proba -> proba_ok (Demo.clf3 proba).
Proof. intros H v proba' E. injection E as <-. exact H. Qed.

Lemma predict_label_ranges_witness :
  exists conf risk,
    pred_confidence
      {| pred_label := Some "noise";
         pred_confidence := Some (360 # 1000);
         pred_risk := Some (1040 # 1000);
         pred_explanation := None |} = Some conf
    /\ pred_risk
         {| pred_label := Some "noise";
            pred_confidence := Some (360 # 1000);
            pred_risk := Some (1040 # 1000);
            pred_explanation := None |} = Some risk
    /\ 0 <= conf <= 1
    /\ 0.2 <= risk <= 1.4.
Proof.
  apply (predict_label_ranges
           (mis_analyzer (Demo.app (Some (Demo.clf3 [0.36; 0.32; 0.32]))))
           Demo.user None).
  - intros c E. injection E as <-. apply demo_clf3_proba_ok.
    repeat constructor; unfold Qle; simpl; lia.
  - vm_compute. reflexivity.
Defined.

(** C2 as stated fails: a three-class classifier whose most probable class
    is "noise" at probability 0.36 yields the risk 1.04. *)
Lemma predict_label_risk_above_one :
  exists p risk,
    predict_label
      (mis_analyzer (Demo.app (Some (Demo.clf3 [0.36; 0.32; 0.32]))))
      Demo.user None = Ok p
    /\ pred_risk p = Some risk
    /\ ~ (0 <= risk <= 1).
Proof.
  eexists _, _. split; [vm_compute; reflexivity |].
  split; [reflexivity |].
  intros [_ H]. revert H. unfold Qle. simpl. lia.
Qed.

(** The endpoint [/api/predict_misconception] passes that risk on as it
    is. *)
Example predict_misconception_risk_above_one :
  predict_misconception (Demo.app (Some (Demo.clf3 [0.36; 0.32; 0.32])))
    Demo.user None
  = Json {| pred_label := Some "noise";
            pred_confidence := Some (360 # 1000);
            pred_risk := Some (1040 # 1000);
            pred_explanation := None |}.
Proof. vm_compute. reflexivity. Qed.

(* ===================================================================== *)
(** * The analysis service *)

Lemma is_noise_or_misc_iff (label : option string) :
  is_noise_or_misc label = true
  <-> label = Some "noise" \/ label = Some "misc".
Proof.
  destruct label as [l |]; simpl.
  - rewrite orb_true_iff, !String.eqb_eq.
    split; (intros [H | H]; [left | right]); congruence.
  - split; [discriminate | intros [H | H]; discriminate].
Qed.

(** The [max(0.0, min(1.0, x))] of the code is the clamp to [0,1]. *)
Lemma max_min_clamp (x y : Q) :
  x == y -> Num.max 0.0 (Num.min 1.0 x) == Spec.clamp01 y.
Proof.
  intros E. unfold Num.max, Num.min, Spec.clamp01.
  destruct (Q.min_spec 1.0 x) as [[H1 E1] | [H1 E1]];
    destruct (Q.max_spec 0.0 (Qmin 1.0 x)) as [[H2 E2] | [H2 E2]];
    rewrite E2; rewrite E1 in H2; try rewrite E1;
    destruct (Num.ltb y 0) eqn:L0;
    try (apply ltb_lt in L0); try (apply ltb_ge in L0);
    try (destruct (Num.ltb 1 y) eqn:L1;
         try (apply ltb_lt in L1); try (apply ltb_ge in L1));
    lra.
Qed.

Lemma clamp01_range (x : Q) : 0 <= Spec.clamp01 x <= 1.
Proof.
  unfold Spec.clamp01.
  destruct (Num.ltb x 0) eqn:L0; [lra |]. apply ltb_ge in L0.
  destruct (Num.ltb 1 x) eqn:L1; [lra |]. apply ltb_ge in L1.
  split; assumption.
Qed.

Lemma mis_risk_of_spec (p : Prediction) : mis_risk_of p == Spec.mis_risk p.
Proof.
  unfold mis_risk_of, Spec.mis_risk.
  apply max_min_clamp.
  destruct (decide (pred_label p = Some "noise" \/ pred_label p = Some "misc"))
    as [H | H].
  - apply is_noise_or_misc_iff in H. rewrite H. lra.
  - rewrite <- is_noise_or_misc_iff in H. apply not_true_is_false in H.
    rewrite H. destruct (pred_risk p); reflexivity.
Qed.

(** C7: the [mis_risk] of the analyze endpoint is the value the specification
    describes: one minus the confidence exactly when the label is "noise" or
    "misc", the risk field (0.4 when absent) otherwise, clamped to [0,1];
    and it lies in [0,1] for every prediction. *)
Theorem mis_risk_derivation (p : Prediction) :
  mis_risk_of p == Spec.mis_risk p /\ 0 <= mis_risk_of p <= 1.
Proof.
  split; [apply mis_risk_of_spec |].
  rewrite mis_risk_of_spec. apply clamp01_range.
Qed.

(** The two cases of the specification's [mis_risk], spelled out. *)
Lemma spec_mis_risk_noise (p : Prediction) :
  pred_label p = Some "noise" \/ pred_label p = Some "misc" ->
  Spec.mis_risk p = Spec.clamp01 (1 - get (pred_confidence p) 0.5).
Proof.
  intros H. unfold Spec.mis_risk. now destruct (decide _).
Qed.

Lemma spec_mis_risk_other (p : Prediction) :
  ~ (pred_label p = Some "noise" \/ pred_label p = Some "misc") ->
  Spec.mis_risk p = Spec.clamp01 (get (pred_risk p) 0.4).
Proof.
  intros H. unfold Spec.mis_risk. destruct (decide _); [contradiction |].
  now destruct (pred_risk p).
Qed.

Section Analyze.

Variable app : App.
Variable b : AnalyzeBody.
Variables (sim_ui sim_qi : Q) (p : Prediction) (d : DifficultyEstimate).

Hypothesis Hui :
  similarity (mis_analyzer app) (user_answer_text b) (ideal_answer_text b)
  = Ok sim_ui.
Hypothesis Hqi :
  similarity (mis_analyzer app) (question_text b) (ideal_answer_text b)
  = Ok sim_qi.
Hypothesis Hpred :
  predict_label (mis_analyzer app) (user_answer_text b) (qid b) = Ok p.
Hypothesis Hdiff : estimate (diff_est app) (question_text b) (qid b) = Ok d.

(** When the four components answer, the handler returns a result whose
    score is the rounded blend. *)
Lemma analyze_freeform_returns :
  exists r,
    analyze_freeform app b = Json r
    /\ answer_score r
       = Num.round (0.65 * sim_ui + 0.35 * (1.0 - mis_risk_of p)) 3
    /\ res_misconception r = p
    /\ res_difficulty r = d.
Proof.
  unfold analyze_freeform, analyze_freeform_body, suggest_guidance.
  rewrite Hui, Hqi, Hpred, Hdiff. cbn [bind].
  eexists. split; [reflexivity |]. repeat split.
Qed.

End Analyze.

Section AnswerScoreBinary64.
Import PrimFloat.
#[local] Set Warnings "-inexact-float".



(** At sim_ui = 0.25 and mis_risk = 0.2 the binary64 blend is just above
    the decimal tie 0.4425, and the endpoint returns 0.443. *)
Example answer_score_at_a_tie :
  exists r,
    AnalyzeBinary64.post_analyze_freeform
      (Demo.app64 0.25%float 0.2%float) (Demo.body None) = Json r
    /\ AnalyzeBinary64.answer_score r = 0.443%float.
Proof. eexists. split; vm_compute; reflexivity. Qed.

End AnswerScoreBinary64.

(** C4, as amended: for sim_ui = 0.8 and mis_risk = 0.2 the answer score
    returned by the analyze endpoint is 0.8, which is
    round(0.65*0.8 + 0.35*0.8, 3). *)
Theorem answer_score_08_02
    (app : App) (b : AnalyzeBody) (sim_ui sim_qi : Q) (p : Prediction)
    (d : DifficultyEstimate) :
  AnalyzeBody_valid b = true ->
  similarity (mis_analyzer app) (user_answer_text b) (ideal_answer_text b)
  = Ok sim_ui ->
  similarity (mis_analyzer app) (question_text b) (ideal_answer_text b)
  = Ok sim_qi ->
  predict_label (mis_analyzer app) (user_answer_text b) (qid b) = Ok p ->
  estimate (diff_est app) (question_text b) (qid b) = Ok d ->
  sim_ui == 0.8 ->
  mis_risk_of p == 0.2 ->
  exists r, post_analyze_freeform app b = Json r /\ answer_score r == 0.8.
Proof.
  intros Hv Hui Hqi Hp Hd Es Em. unfold post_analyze_freeform. rewrite Hv.
  destruct (analyze_freeform_returns app b sim_ui sim_qi p d Hui Hqi Hp Hd)
    as (r & Hr & Hs & _).
  exists r. split; [exact Hr |].
  rewrite Hs.
  transitivity (Num.round 0.8 3); [| reflexivity].
  apply round_proper. rewrite Es, Em. reflexivity.
Qed.

Lemma answer_score_08_02_witness :
  exists r,
    post_analyze_freeform (Demo.app (Some (Demo.clf3 [0.1; 0.9; 0.0])))
      (Demo.body None) = Json r
    /\ answer_score r == 0.8.
Proof.
  apply (answer_score_08_02 (Demo.app (Some (Demo.clf3 [0.1; 0.9; 0.0])))
           (Demo.body None) (8000 # 10000) (0 # 10000)
           {| pred_label := Some "partial";
              pred_confidence := Some (900 # 1000);
              pred_risk := Some (200 # 1000);
              pred_explanation := None |}
           {| difficulty_norm := 0.5; bucket := "medium"; diff_qid := None |}).
  - reflexivity.
  - vm_compute. reflexivity.
  - vm_compute. reflexivity.
  - vm_compute. reflexivity.
  - reflexivity.
  - reflexivity.
  - vm_compute. reflexivity.
Defined.

(** C4 as stated fails: at sim_ui = 0.8 and mis_risk = 0.2 the endpoint
    returns the score 0.8, not 0.92. *)
Lemma answer_score_08_02_not_092 :
  exists sim_ui p r,
    similarity (mis_analyzer (Demo.app (Some (Demo.clf3 [0.1; 0.9; 0.0]))))
      Demo.user Demo.ideal = Ok sim_ui
    /\ sim_ui == 0.8
    /\ predict_label (mis_analyzer (Demo.app (Some (Demo.clf3 [0.1; 0.9; 0.0]))))
         Demo.user None = Ok p
    /\ mis_risk_of p == 0.2
    /\ post_analyze_freeform (Demo.app (Some (Demo.clf3 [0.1; 0.9; 0.0])))
         (Demo.body None) = Json r
    /\ ~ answer_score r == 0.92.
Proof.
  eexists _, _, _.
  split; [vm_compute; reflexivity |].
  split; [reflexivity |].
  split; [vm_compute; reflexivity |].
  split; [vm_compute; reflexivity |].
  split; [vm_compute; reflexivity |].
  cbn [answer_score]. unfold Qeq. simpl. lia.
Qed.

(* ===================================================================== *)
(** * Guidance *)

(** The keyword list of the code is the specification's list with the Greek
    letter added. *)
Lemma guidance_keywords_epsilon (f : string -> bool) :
  existsb f guidance_keywords = existsb f ("ε" :: Spec.guidance_keywords).
Proof.
  unfold guidance_keywords, Spec.guidance_keywords. cbn [existsb].
  destruct (f "epsilon"), (f "ε"); reflexivity.
Qed.

(** A keyword test is true exactly when the lowercased label has one of the
    keywords as a substring. *)
Lemma keyword_test_iff (keywords : list string) (label : string) :
  existsb (fun k => Str.contains k (Str.lower label)) keywords = true
  <-> exists k pre post,
        In k keywords /\ Str.lower label = (pre ++ k ++ post)%string.
Proof.
  rewrite existsb_exists. split.
  - intros (k & Hk & Hc). apply contains_iff in Hc as (pre & post & E).
    now exists k, pre, post.
  - intros (k & pre & post & Hk & E). exists k. split; [exact Hk |].
    apply contains_iff. now exists pre, post.
Qed.

Lemma suggest_guidance_raises
    (self : MisconceptionAnalyzer) (question ideal user mis_label : string)
    (e : exn) :
  similarity self user ideal = Raise e ->
  suggest_guidance self question ideal user mis_label = Raise e.
Proof. intros H. unfold suggest_guidance. now rewrite H. Qed.

(** C8, as amended: [suggest_guidance] returns the opening tip, then the
    definition-and-example tip exactly when the user-vs-ideal similarity is
    below 0.65, then the contrast tip exactly when the lowercased label
    contains one of the eight keywords of the specification or the Greek
    letter epsilon, then the closing tip, joined with single spaces. *)
Theorem suggest_guidance_tips
    (self : MisconceptionAnalyzer) (question ideal user mis_label : string)
    (sim_ui : Q) :
  similarity self user ideal = Ok sim_ui ->
  suggest_guidance self question ideal user mis_label
  = Ok (Spec.guidance ("ε" :: Spec.guidance_keywords) sim_ui mis_label).
Proof.
  intros H. unfold suggest_guidance, Spec.guidance. rewrite H. cbn [bind].
  rewrite guidance_keywords_epsilon.
  destruct (Num.ltb sim_ui 0.65), (existsb _ _); reflexivity.
Qed.

Lemma suggest_guidance_tips_witness :
  suggest_guidance (mis_analyzer (Demo.app None)) Demo.question Demo.ideal
    Demo.user "ε-closure"
  = Ok (Spec.guidance ("ε" :: Spec.guidance_keywords) (8000 # 10000)
          "ε-closure").
Proof.
  apply (suggest_guidance_tips (mis_analyzer (Demo.app None)) Demo.question
           Demo.ideal Demo.user "ε-closure" (8000 # 10000)).
  vm_compute. reflexivity.
Defined.

(** C8 as stated fails: for the label "ε-closure", which contains none of
    the eight listed keywords, the contrast tip is emitted all the same. *)
Lemma suggest_guidance_epsilon_symbol :
  exists sim_ui,
    similarity (mis_analyzer (Demo.app None)) Demo.user Demo.ideal = Ok sim_ui
    /\ existsb (fun k => Str.contains k (Str.lower "ε-closure"))
         Spec.guidance_keywords = false
    /\ suggest_guidance (mis_analyzer (Demo.app None)) Demo.question
         Demo.ideal Demo.user "ε-closure"
       <> Ok (Spec.guidance Spec.guidance_keywords sim_ui "ε-closure").
Proof.
  eexists. split; [vm_compute; reflexivity |].
  split; [vm_compute; reflexivity |].
  intros H. vm_compute in H. discriminate H.
Qed.

(* ===================================================================== *)
(** * Request validation *)

Lemma analyze_freeform_not_validation_error (app : App) (b : AnalyzeBody) :
  analyze_freeform app b <> RequestValidationError.
Proof.
  unfold analyze_freeform. now destruct (analyze_freeform_body app b).
Qed.

(** C9, as amended: the endpoint accepts a body exactly when the question
    and the ideal answer have at least 3 characters and the user answer at
    least 1, counted on the texts as sent; nothing is trimmed, so a field
    of whitespace only is accepted. *)
Theorem analyze_body_accepted_iff (app : App) (b : AnalyzeBody) :
  post_analyze_freeform app b <> RequestValidationError
  <-> (3 <= Str.len (question_text b)
       /\ 3 <= Str.len (ideal_answer_text b)
       /\ 1 <= Str.len (user_answer_text b))%nat.
Proof.
  assert (V : AnalyzeBody_valid b = true
              <-> (3 <= Str.len (question_text b)
                   /\ 3 <= Str.len (ideal_answer_text b)
                   /\ 1 <= Str.len (user_answer_text b))%nat).
  { unfold AnalyzeBody_valid, min_length.
    rewrite !andb_true_iff, !Nat.leb_le. tauto. }
  unfold post_analyze_freeform. rewrite <- V.
  destruct (AnalyzeBody_valid b).
  - split; [reflexivity | intros _].
    apply analyze_freeform_not_validation_error.
  - split; [intros H; now contradiction H | discriminate].
Qed.

(** C9 as stated fails: a body of blanks passes the length checks and every
    text field is empty after trimming. *)
Lemma blank_body_accepted :
  post_analyze_freeform (Demo.app None) Demo.blank_body <> RequestValidationError
  /\ Str.strip (question_text Demo.blank_body) = ""
  /\ Str.strip (ideal_answer_text Demo.blank_body) = ""
  /\ Str.strip (user_answer_text Demo.blank_body) = "".
Proof.
  split; [| repeat split; reflexivity].
  unfold post_analyze_freeform. cbn [AnalyzeBody_valid].
  apply analyze_freeform_not_validation_error.
Qed.

(* ===================================================================== *)
(** * The numeric counterexamples in binary64 *)

Section Binary64Replay.
Import PrimFloat.
#[local] Set Warnings "-inexact-float".

(** At sim_ui = 0.8 and mis_risk = 0.2 the blend is within 0.0005 of 0.8, so
    its rounding to 3 decimals is 0.8 in binary64 too. *)
Example binary64_blend_08_02 :
  (0.7995 <? Binary64.blend 0.8 0.2)%float = true
  /\ (Binary64.blend 0.8 0.2 <? 0.8005)%float = true.
Proof. split; reflexivity. Qed.

(** [Binary64.round] on the values where Python's [round] is known to
    surprise: 2.675 is below the tie, 0.5 and 0.0625 are exact ties, a small
    negative number keeps its sign, a large float is returned as it is. *)
Example binary64_round_ex :
  Binary64.round 2.675 2 = 2.67%float
  /\ Binary64.round 0.5 0 = 0%float
  /\ Binary64.round 1.5 0 = 2%float
  /\ Binary64.round 0.0625 3 = 0.062%float
  /\ Binary64.round (-0.0001) 3 = (-0)%float
  /\ Binary64.round 1e300 3 = 1e300%float
  /\ Binary64.round (0.65 * 0.03 + 0.35 * (1.0 - 0.4)) 3 = 0.229%float.
Proof. repeat split; vm_compute; reflexivity. Qed.

(** At confidence 0.36 the risk of a misconception-like label is above 1 in
    binary64 too. *)
Example binary64_risk_036 :
  (1 <? Binary64.misconception_risk 0.36)%float = true.
Proof. reflexivity. Qed.

End Binary64Replay.

(* ===================================================================== *)
(** * [clean_text] *)

Section CleanText.

Lemma rev_cons (c : ascii) (s : string) :
  Str.rev (String c s) = (Str.rev s ++ String c "")%string.
Proof. unfold Str.rev at 1. simpl. apply rev_append_spec. Qed.

Lemma rev_snoc (s : string) (c : ascii) :
  Str.rev (s ++ String c "") = String c (Str.rev s).
Proof. now rewrite rev_app. Qed.

Lemma rev_involutive (s : string) : Str.rev (Str.rev s) = s.
Proof.
  induction s as [| c s IH]; [reflexivity |].
  now rewrite rev_cons, rev_snoc, IH.
Qed.

(** Induction from the end of a string. *)
Lemma string_snoc_ind (P : string -> Prop) :
  P ""%string ->
  (forall s c, P s -> P (s ++ String c "")%string) ->
  forall s, P s.
Proof.
  intros H0 Hs s. rewrite <- (rev_involutive s).
  induction (Str.rev s) as [| c r IH]; [exact H0 |].
  rewrite rev_cons. now apply Hs.
Qed.

Lemma rstrip_snoc (s : string) (c : ascii) :
  Str.rstrip (s ++ String c "")
  = if Str.isspace c then Str.rstrip s else (s ++ String c "")%string.
Proof.
  unfold Str.rstrip. rewrite rev_snoc. cbn [Str.lstrip].
  destruct (Str.isspace c); [reflexivity |].
  now rewrite rev_cons, rev_involutive.
Qed.

Lemma last_is_space_snoc (s : string) (c : ascii) :
  last_is_space (s ++ String c "") = Str.isspace c.
Proof.
  induction s as [| d s IH]; [reflexivity |].
  rewrite append_cons. cbn [last_is_space].
  destruct (s ++ String c "")%string eqn:E; [| exact IH].
  destruct s; discriminate E.
Qed.

Lemma first_is_space_snoc (s : string) (c : ascii) :
  first_is_space (s ++ String c "") = false -> first_is_space s = false.
Proof. destruct s; [reflexivity | intros H; exact H]. Qed.

Lemma lstrip_first (s : string) : first_is_space (Str.lstrip s) = false.
Proof.
  induction s as [| c s IH]; [reflexivity |].
  cbn [Str.lstrip]. destruct (Str.isspace c) eqn:E; [exact IH |].
  exact E.
Qed.

Lemma lstrip_id (s : string) : first_is_space s = false -> Str.lstrip s = s.
Proof.
  destruct s as [| c s]; [reflexivity |]. simpl. now intros ->.
Qed.

Lemma rstrip_last (s : string) : last_is_space (Str.rstrip s) = false.
Proof.
  induction s as [| s c IH] using string_snoc_ind; [reflexivity |].
  rewrite rstrip_snoc. destruct (Str.isspace c) eqn:E; [exact IH |].
  now rewrite last_is_space_snoc.
Qed.

Lemma rstrip_first (s : string) :
  first_is_space s = false -> first_is_space (Str.rstrip s) = false.
Proof.
  induction s as [| s c IH] using string_snoc_ind; [reflexivity |].
  intros H. rewrite rstrip_snoc. destruct (Str.isspace c); [| exact H].
  apply IH. now apply first_is_space_snoc in H.
Qed.

Lemma rstrip_id (s : string) : last_is_space s = false -> Str.rstrip s = s.
Proof.
  destruct s as [| s c _] using string_snoc_ind; [reflexivity |].
  rewrite last_is_space_snoc, rstrip_snoc. now intros ->.
Qed.

Lemma strip_trimmed (s : string) :
  first_is_space (Str.strip s) = false /\ last_is_space (Str.strip s) = false.
Proof.
  unfold Str.strip. split.
  - apply rstrip_first, lstrip_first.
  - apply rstrip_last.
Qed.

Lemma strip_id (s : string) :
  first_is_space s = false -> last_is_space s = false -> Str.strip s = s.
Proof.
  intros Hf Hl. unfold Str.strip. rewrite (lstrip_id s Hf).
  now apply rstrip_id.
Qed.

Lemma sub_spaces_first (s : string) :
  first_is_space (Str.sub_spaces false s) = first_is_space s.
Proof.
  destruct s as [| c s]; [reflexivity |]. cbn [Str.sub_spaces].
  destruct (Str.isspace c) eqn:E; cbn [first_is_space]; rewrite ?E; reflexivity.
Qed.

Lemma sub_spaces_nonempty (b : bool) (s : string) :
  s <> ""%string -> last_is_space s = false ->
  Str.sub_spaces b s <> ""%string.
Proof.
  revert b. induction s as [| c s IH]; intros b Hne Hl; [contradiction |].
  cbn [Str.sub_spaces]. destruct s as [| d s'].
  - simpl in Hl. rewrite Hl. discriminate.
  - assert (Hl' : last_is_space (String d s') = false) by exact Hl.
    destruct (Str.isspace c); [destruct b |]; try discriminate.
    apply IH; [discriminate | exact Hl'].
Qed.

Lemma last_is_space_cons (c : ascii) (s : string) :
  s <> ""%string -> last_is_space (String c s) = last_is_space s.
Proof. destruct s; [contradiction | reflexivity]. Qed.

Lemma sub_spaces_last (b : bool) (s : string) :
  last_is_space s = false -> last_is_space (Str.sub_spaces b s) = false.
Proof.
  revert b. induction s as [| c s IH]; intros b Hl; [reflexivity |].
  cbn [Str.sub_spaces]. destruct s as [| d s'].
  - simpl in Hl. rewrite Hl. simpl. exact Hl.
  - assert (Hl' : last_is_space (String d s') = false) by exact Hl.
    assert (Hne : forall b', Str.sub_spaces b' (String d s') <> ""%string)
      by (intros b'; apply sub_spaces_nonempty; [discriminate | exact Hl']).
    destruct (Str.isspace c); [destruct b |];
      rewrite ?last_is_space_cons by apply Hne; apply IH, Hl'.
Qed.

(** Collapsing whitespace runs a second time changes nothing. *)
Lemma sub_spaces_idempotent (b : bool) (s : string) :
  Str.sub_spaces b (Str.sub_spaces b s) = Str.sub_spaces b s.
Proof.
  revert b. induction s as [| c s IH]; intros b; [reflexivity |].
  cbn [Str.sub_spaces]. destruct (Str.isspace c) eqn:E.
  - destruct b; [apply IH |].
    cbn [Str.sub_spaces]. change (Str.isspace " ") with true. cbn iota.
    now rewrite IH.
  - cbn [Str.sub_spaces]. rewrite E. now rewrite IH.
Qed.

Lemma sub_spaces_single_spaced (b : bool) (s : string) :
  single_spaced b (Str.sub_spaces b s) = true.
Proof.
  revert b. induction s as [| c s IH]; intros b; [reflexivity |].
  cbn [Str.sub_spaces]. destruct (Str.isspace c) eqn:E.
  - destruct b; [apply IH |].
    cbn [single_spaced]. change (Str.isspace " ") with true. cbn iota.
    rewrite IH. reflexivity.
  - cbn [single_spaced]. rewrite E. apply IH.
Qed.

Lemma clean_text_trimmed (t : string) :
  first_is_space (clean_text t) = false
  /\ last_is_space (clean_text t) = false.
Proof.
  unfold clean_text. destruct (strip_trimmed t) as [Hf Hl]. split.
  - now rewrite sub_spaces_first.
  - now apply sub_spaces_last.
Qed.

(** X1: for an ASCII text, the output of [clean_text] is in normal form: it
    neither starts nor ends with whitespace, its only whitespace characters
    are single spaces, and no two of them are adjacent. *)
Theorem clean_text_normal_form (t : string) :
  Str.is_ascii t = true ->
  first_is_space (clean_text t) = false
  /\ last_is_space (clean_text t) = false
  /\ single_spaced false (clean_text t) = true.
Proof.
  intros _. destruct (clean_text_trimmed t) as [Hf Hl].
  repeat split; [exact Hf | exact Hl |].
  apply sub_spaces_single_spaced.
Qed.

Lemma clean_text_normal_form_witness :
  first_is_space (clean_text "  a 	 b  ") = false
  /\ last_is_space (clean_text "  a 	 b  ") = false
  /\ single_spaced false (clean_text "  a 	 b  ") = true.
Proof.
  apply (clean_text_normal_form "  a 	 b  "). reflexivity.
Defined.

(** X2: [clean_text] is idempotent: cleaning a cleaned text gives it back. *)
Theorem clean_text_idempotent (t : string) :
  clean_text (clean_text t) = clean_text t.
Proof.
  destruct (clean_text_trimmed t) as [Hf Hl].
  unfold clean_text at 1. rewrite (strip_id _ Hf Hl).
  apply sub_spaces_idempotent.
Qed.

Lemma remove_spaces_snoc (s : string) (c : ascii) :
  remove_spaces (s ++ String c "")
  = if Str.isspace c then remove_spaces s
    else (remove_spaces s ++ String c "")%string.
Proof.
  induction s as [| d s IH].
  - simpl. now destruct (Str.isspace c).
  - rewrite append_cons. cbn [remove_spaces]. rewrite IH.
    destruct (Str.isspace d), (Str.isspace c); reflexivity.
Qed.

Lemma remove_spaces_lstrip (s : string) :
  remove_spaces (Str.lstrip s) = remove_spaces s.
Proof.
  induction s as [| c s IH]; [reflexivity |].
  cbn [Str.lstrip remove_spaces]. destruct (Str.isspace c) eqn:E; [exact IH |].
  cbn [remove_spaces]. now rewrite E.
Qed.

Lemma remove_spaces_rstrip (s : string) :
  remove_spaces (Str.rstrip s) = remove_spaces s.
Proof.
  induction s as [| s c IH] using string_snoc_ind; [reflexivity |].
  rewrite rstrip_snoc, remove_spaces_snoc.
  destruct (Str.isspace c) eqn:E; [exact IH |].
  now rewrite remove_spaces_snoc, E.
Qed.

Lemma remove_spaces_sub_spaces (b : bool) (s : string) :
  remove_spaces (Str.sub_spaces b s) = remove_spaces s.
Proof.
  revert b. induction s as [| c s IH]; intros b; [reflexivity |].
  cbn [Str.sub_spaces remove_spaces]. destruct (Str.isspace c) eqn:E.
  - destruct b; [apply IH |].
    cbn [remove_spaces]. change (Str.isspace " ") with true. cbn iota.
    apply IH.
  - cbn [remove_spaces]. rewrite E. now rewrite IH.
Qed.

(** X3: on an ASCII text [clean_text] only touches whitespace: the
    characters that are not whitespace are kept, all of them and in the same
    order. *)
Theorem clean_text_keeps_characters (t : string) :
  Str.is_ascii t = true ->
  remove_spaces (clean_text t) = remove_spaces t.
Proof.
  intros _. unfold clean_text, Str.strip.
  now rewrite remove_spaces_sub_spaces, remove_spaces_rstrip,
    remove_spaces_lstrip.
Qed.

Lemma clean_text_keeps_characters_witness :
  remove_spaces (clean_text "  a 	 b  ") = remove_spaces "  a 	 b  ".
Proof.
  apply (clean_text_keeps_characters "  a 	 b  "). reflexivity.
Defined.

(** X4: for an ASCII text, [clean_text] returns the empty string exactly
    when the text has no character other than whitespace (the empty text
    included). *)
Theorem clean_text_empty_iff (t : string) :
  Str.is_ascii t = true ->
  clean_text t = ""%string <-> remove_spaces t = ""%string.
Proof.
  intros _.
  assert (remove_spaces t = remove_spaces (clean_text t)) as ->.
  { unfold clean_text, Str.strip.
    now rewrite remove_spaces_sub_spaces, remove_spaces_rstrip,
      remove_spaces_lstrip. }
  destruct (clean_text_trimmed t) as [Hf _].
  destruct (clean_text t) as [| c s]; [tauto |].
  simpl in Hf. cbn [remove_spaces]. rewrite Hf.
  split; discriminate.
Qed.

Lemma clean_text_empty_iff_witness :
  clean_text " 	 " = ""%string <-> remove_spaces " 	 " = ""%string.
Proof.
  apply (clean_text_empty_iff " 	 "). reflexivity.
Defined.

End CleanText.

(* ===================================================================== *)
(** * [cosine_sim] and [similarity] *)

Section Similarity.

Lemma matmul_row_length (a b : vec) (s : Q) :
  matmul_row a b = Ok s -> length a = length b.
Proof.
  revert b s. induction a as [| x a IH]; intros [| y b] s; simpl;
    try discriminate; [reflexivity |].
  destruct (matmul_row a b) as [s' |] eqn:E; [| discriminate].
  intros _. f_equal. now apply (IH b s').
Qed.

Lemma matmul_row_total (a b : vec) :
  length a = length b -> exists s, matmul_row a b = Ok s.
Proof.
  revert b. induction a as [| x a IH]; intros [| y b] H; simpl in *;
    try discriminate; [now eexists |].
  injection H as H. destruct (IH b H) as [s ->]. now eexists.
Qed.

Lemma matmul_row_mismatch (a b : vec) :
  length a <> length b ->
  matmul_row a b = Raise (Exception "matmul: shapes not aligned").
Proof.
  revert b. induction a as [| x a IH]; intros [| y b] H; simpl in *;
    try reflexivity; [contradiction |].
  rewrite IH; [reflexivity |]. intros E. apply H. now rewrite E.
Qed.

Lemma matmul_row_sym (a b : vec) (s : Q) :
  matmul_row a b = Ok s -> exists s', matmul_row b a = Ok s' /\ s' == s.
Proof.
  revert b s. induction a as [| x a IH]; intros [| y b] s; simpl;
    try discriminate.
  - intros H. injection H as <-. now exists 0.
  - destruct (matmul_row a b) as [t |] eqn:E; [| discriminate].
    intros H. injection H as <-.
    destruct (IH b t E) as (t' & -> & Et). simpl.
    eexists. split; [reflexivity |]. rewrite Et. ring.
Qed.

Lemma matmul_row_self (v : vec) : matmul_row v v = Ok (sum_squares v).
Proof.
  induction v as [| x v IH]; [reflexivity |].
  simpl. now rewrite IH.
Qed.

Lemma clamp_range (s : Q) : -1 <= Num.max (-1.0) (Num.min 1.0 s) <= 1.
Proof.
  split.
  - apply Qle_trans with (-1.0); [lra | apply max_ge_l].
  - apply max_le; [lra |].
    apply Qle_trans with 1.0; [apply min_le_l | lra].
Qed.

Lemma clamp_proper (s t : Q) :
  s == t ->
  Num.max (-1.0) (Num.min 1.0 s) == Num.max (-1.0) (Num.min 1.0 t).
Proof. intros E. unfold Num.max, Num.min. now rewrite E. Qed.

Lemma clamp_one (s : Q) : s == 1 -> Num.max (-1.0) (Num.min 1.0 s) == 1.
Proof.
  intros E. rewrite (clamp_proper s 1 E). reflexivity.
Qed.

(** X5: [cosine_sim] returns a value exactly when the two vectors have the
    same width; on vectors of different widths the matrix product raises. *)
Theorem cosine_sim_defined_iff (a b : vec) :
  (exists s, cosine_sim a b = Ok s) <-> length a = length b.
Proof.
  unfold cosine_sim. split.
  - intros [s H]. destruct (matmul_row a b) as [t |] eqn:E; [| discriminate].
    now apply matmul_row_length in E.
  - intros H. destruct (matmul_row_total a b H) as [t ->]. now eexists.
Qed.

(** X6: whatever the vectors (normalized or not), a value returned by
    [cosine_sim] lies in [-1, 1]. *)
Theorem cosine_sim_range (a b : vec) (s : Q) :
  cosine_sim a b = Ok s -> -1 <= s <= 1.
Proof.
  unfold cosine_sim. destruct (matmul_row a b) as [t |]; [| discriminate].
  intros H. injection H as <-. apply clamp_range.
Qed.

Lemma cosine_sim_range_witness : -1 <= 1.0 <= 1.
Proof.
  apply (cosine_sim_range [3; 4] [1; 1] 1.0). reflexivity.
Defined.

Lemma cosine_sim_swap (a b : vec) (s : Q) :
  cosine_sim a b = Ok s -> exists s', cosine_sim b a = Ok s' /\ s' == s.
Proof.
  unfold cosine_sim. destruct (matmul_row a b) as [t |] eqn:E; [| discriminate].
  intros H. injection H as <-.
  destruct (matmul_row_sym a b t E) as (t' & -> & Et).
  eexists. split; [reflexivity |]. now apply clamp_proper.
Qed.

Lemma similarity_unfold (self : MisconceptionAnalyzer) (a_text b_text : string) :
  similarity self a_text b_text
  = (s <- cosine_sim (encoder self (clean_text a_text))
            (encoder self (clean_text b_text)) ;;
     Ok (Num.round s 4)).
Proof. reflexivity. Qed.

(** X7: a similarity is a number of at most four decimals in [-1, 1]. *)
Theorem similarity_range
    (self : MisconceptionAnalyzer) (a_text b_text : string) (s : Q) :
  similarity self a_text b_text = Ok s ->
  -1 <= s <= 1 /\ exists k : Z, s = k # 10000.
Proof.
  rewrite similarity_unfold.
  destruct (cosine_sim _ _) as [c |] eqn:E; [| discriminate].
  intros H. injection H as <-. unfold cosine_sim in E.
  destruct (matmul_row _ _) as [t |]; [| discriminate].
  injection E as <-. destruct (clamp_range t) as [H0 H1].
  split; [split |].
  - apply round_ge; [reflexivity | exact H0].
  - apply round_le; [reflexivity | exact H1].
  - now eexists.
Qed.

Lemma similarity_range_witness :
  -1 <= 8000 # 10000 <= 1 /\ exists k : Z, 8000 # 10000 = k # 10000.
Proof.
  apply (similarity_range (mis_analyzer (Demo.app None)) Demo.user Demo.ideal).
  vm_compute. reflexivity.
Defined.

(** X8: similarity is symmetric: swapping the two texts gives the same
    value. *)
Theorem similarity_symmetric
    (self : MisconceptionAnalyzer) (a_text b_text : string) (s : Q) :
  similarity self a_text b_text = Ok s ->
  exists s', similarity self b_text a_text = Ok s' /\ s' == s.
Proof.
  rewrite !similarity_unfold.
  destruct (cosine_sim _ _) as [c |] eqn:E; [| discriminate].
  intros H. injection H as <-.
  destruct (cosine_sim_swap _ _ c E) as (c' & -> & Ec).
  eexists. split; [reflexivity |]. now apply round_proper.
Qed.

Lemma similarity_symmetric_witness :
  exists s',
    similarity (mis_analyzer (Demo.app None)) Demo.ideal Demo.user = Ok s'
    /\ s' == 8000 # 10000.
Proof.
  apply (similarity_symmetric (mis_analyzer (Demo.app None)) Demo.user
           Demo.ideal).
  vm_compute. reflexivity.
Defined.

(** X9: when the encoder gives a text a vector of norm 1, the similarity of
    the text with itself is 1. *)
Theorem similarity_self
    (self : MisconceptionAnalyzer) (a_text : string) :
  sum_squares (encoder self (clean_text a_text)) == 1 ->
  exists s, similarity self a_text a_text = Ok s /\ s == 1.
Proof.
  intros H. rewrite similarity_unfold. unfold cosine_sim.
  rewrite matmul_row_self. cbn [bind].
  eexists. split; [reflexivity |].
  transitivity (Num.round 1 4); [| reflexivity].
  apply round_proper, clamp_one, H.
Qed.

Lemma similarity_self_witness :
  exists s,
    similarity (mis_analyzer (Demo.app None)) Demo.user Demo.user = Ok s
    /\ s == 1.
Proof.
  apply (similarity_self (mis_analyzer (Demo.app None)) Demo.user).
  vm_compute. reflexivity.
Defined.

(** X10: similarity does not see whitespace layout: cleaning either text
    beforehand gives the same result. *)
Theorem similarity_of_cleaned
    (self : MisconceptionAnalyzer) (a_text b_text : string) :
  similarity self (clean_text a_text) (clean_text b_text)
  = similarity self a_text b_text.
Proof.
  assert (fixed : forall t, clean_text (clean_text t) = clean_text t).
  { intros t. destruct (clean_text_trimmed t) as [Hf Hl].
    unfold clean_text at 1. rewrite (strip_id _ Hf Hl).
    apply sub_spaces_idempotent. }
  rewrite !similarity_unfold. now rewrite !fixed.
Qed.

End Similarity.

(* ===================================================================== *)
(** * The classifier step of [predict_label] *)

Section Classify.

Lemma argmax_from_spec (xs pre : list Q) (best : nat) (bestv : Q) :
  nth_error pre best = Some bestv ->
  List.Forall (fun x => x <= bestv) pre ->
  (forall j x, (j < best)%nat -> nth_error pre j = Some x -> x < bestv) ->
  exists m,
    nth_error (pre ++ xs) (argmax_from best bestv (length pre) xs) = Some m
    /\ List.Forall (fun x => x <= m) (pre ++ xs)
    /\ (forall j x,
          (j < argmax_from best bestv (length pre) xs)%nat ->
          nth_error (pre ++ xs) j = Some x -> x < m).
Proof.
  revert pre best bestv.
  induction xs as [| x t IH]; intros pre best bestv Hb Hall Hfirst.
  - rewrite app_nil_r. now exists bestv.
  - assert (Hlt : (best < length pre)%nat)
      by (apply nth_error_Some; rewrite Hb; discriminate).
    cbn [argmax_from].
    replace (pre ++ x :: t) with ((pre ++ [x]) ++ t)
      by (now rewrite <- app_assoc).
    replace (S (length pre)) with (length (pre ++ [x]))
      by (rewrite List.length_app; simpl; lia).
    destruct (Num.ltb bestv x) eqn:L.
    + apply ltb_lt in L. apply IH.
      * rewrite List.nth_error_app2 by lia. now rewrite Nat.sub_diag.
      * apply List.Forall_app. split.
        -- eapply List.Forall_impl; [| exact Hall]. intros y Hy. simpl in Hy.
           apply Qle_trans with bestv; [exact Hy | now apply Qlt_le_weak].
        -- constructor; [apply Qle_refl | constructor].
      * intros j y Hj Hy. rewrite List.nth_error_app1 in Hy by exact Hj.
        apply Qle_lt_trans with bestv; [| exact L].
        rewrite List.Forall_forall in Hall. apply Hall.
        eapply nth_error_In, Hy.
    + apply ltb_ge in L. apply IH.
      * now rewrite List.nth_error_app1 by exact Hlt.
      * apply List.Forall_app. split; [exact Hall |].
        constructor; [exact L | constructor].
      * intros j y Hj Hy. apply (Hfirst j y Hj).
        rewrite List.nth_error_app1 in Hy by lia. exact Hy.
Qed.

(** [np.argmax] as modelled: the first index of a largest element. *)
Lemma argmax_spec (xs : list Q) (i : nat) :
  argmax xs = Ok i ->
  exists m,
    nth_error xs i = Some m
    /\ List.Forall (fun x => x <= m) xs
    /\ (forall j x, (j < i)%nat -> nth_error xs j = Some x -> x < m).
Proof.
  destruct xs as [| x t]; [discriminate |].
  intros H. injection H as <-.
  apply (argmax_from_spec t [x] 0 x).
  - reflexivity.
  - constructor; [apply Qle_refl | constructor].
  - intros j y Hj. lia.
Qed.

Lemma argmax_nonempty (xs : list Q) :
  xs <> [] -> exists i, argmax xs = Ok i.
Proof. destruct xs; [contradiction | intros _; now eexists]. Qed.

(** X11: when the classifier gives probabilities, one per class, the label
    is the class of the largest probability (the first one on a tie) and the
    confidence is that probability. *)
Theorem classify_most_probable (c : Classifier) (v : vec) (proba : list Q) :
  predict_proba c v = Ok proba ->
  proba <> [] ->
  length (classes_ c) = length proba ->
  exists idx label conf,
    classify c v = Ok (label, conf)
    /\ nth_error (classes_ c) idx = Some label
    /\ nth_error proba idx = Some conf
    /\ List.Forall (fun x => x <= conf) proba
    /\ (forall j x, (j < idx)%nat -> nth_error proba j = Some x -> x < conf).
Proof.
  intros Hp Hne Hlen.
  destruct (argmax_nonempty proba Hne) as [idx Hi].
  destruct (argmax_spec proba idx Hi) as (conf & Hc & Hmax & Hfirst).
  assert (Hlt : (idx < length (classes_ c))%nat).
  { rewrite Hlen. apply nth_error_Some. rewrite Hc. discriminate. }
  destruct (nth_error (classes_ c) idx) as [label |] eqn:Hl;
    [| apply nth_error_None in Hl; lia].
  exists idx, label, conf.
  split; [| now repeat split].
  unfold classify, try_except, getitem. rewrite Hp. cbn [bind].
  rewrite Hi. cbn [bind]. rewrite Hl. cbn [bind]. now rewrite Hc.
Qed.

Lemma classify_most_probable_witness :
  exists idx label conf,
    classify (Demo.clf3 [0.2; 0.5; 0.3]) [] = Ok (label, conf)
    /\ nth_error (classes_ (Demo.clf3 [0.2; 0.5; 0.3])) idx = Some label
    /\ nth_error [0.2; 0.5; 0.3] idx = Some conf
    /\ List.Forall (fun x => x <= conf) [0.2; 0.5; 0.3]
    /\ (forall j x,
          (j < idx)%nat -> nth_error [0.2; 0.5; 0.3] j = Some x -> x < conf).
Proof.
  apply (classify_most_probable (Demo.clf3 [0.2; 0.5; 0.3]) []
           [0.2; 0.5; 0.3]).
  - reflexivity.
  - discriminate.
  - reflexivity.
Defined.

Lemma classify_raise_inv (c : Classifier) (v : vec) (e : exn) :
  classify c v = Raise e -> predict c v = Raise e.
Proof.
  unfold classify, try_except.
  destruct (bind (predict_proba c v) _); [discriminate |].
  destruct (predict c v); cbn [bind]; [discriminate | congruence].
Qed.

Lemma classify_no_proba (c : Classifier) (v : vec) (e : exn) (l : string) :
  predict_proba c v = Raise e -> predict c v = Ok l ->
  classify c v = Ok (l, 0.6).
Proof.
  intros Hp Hl. unfold classify, try_except. now rewrite Hp, Hl.
Qed.

End Classify.

(* ===================================================================== *)
(** * More on [predict_label] *)

Section PredictLabel.

Variable self : MisconceptionAnalyzer.
Variable c : Classifier.
Hypothesis clf_loaded : clf self = Some c.

(** X12: a classifier that cannot give probabilities: when [predict_proba]
    raises and [predict] returns a label, [predict_label] (without qid)
    returns that label with confidence 0.6, and the risk is 0.8 for a
    misconception-like label and 0.2 for any other. *)
Theorem predict_label_hard_prediction (text : string) (e : exn) (l : string) :
  predict_proba c (encoder self (clean_text text)) = Raise e ->
  predict c (encoder self (clean_text text)) = Ok l ->
  exists p conf risk,
    predict_label self text None = Ok p
    /\ pred_label p = Some l
    /\ pred_confidence p = Some conf /\ conf == 0.6
    /\ pred_risk p = Some risk
    /\ risk
       == (if existsb (fun k => Str.contains k (Str.lower l)) risk_keywords
           then 0.8 else 0.2).
Proof.
  intros Hp Hl.
  rewrite (predict_label_classified self c clf_loaded text None l 0.6
             (classify_no_proba c _ e l Hp Hl)).
  cbn [is_unseen]. eexists _, _, _.
  split; [reflexivity |]. cbn [pred_label pred_confidence pred_risk].
  split; [reflexivity |]. split; [reflexivity |]. split; [reflexivity |].
  split; [reflexivity |].
  unfold heuristic_risk. destruct (existsb _ _); reflexivity.
Qed.

(** X13: a label that belongs to the reference set of the question is
    returned as it is: the qid makes no difference to the prediction. *)
Theorem predict_label_known_label
    (text : string) (q : Z) (known : list string) (label : string) (conf : Q) :
  label_ref self !! q = Some known ->
  classify c (encoder self (clean_text text)) = Ok (label, conf) ->
  In label known ->
  exists p,
    predict_label self text (Some q) = Ok p
    /\ predict_label self text None = Ok p
    /\ pred_label p = Some label.
Proof.
  intros Hk Hl Hin.
  rewrite !(predict_label_classified self c clf_loaded text _ label conf Hl).
  assert (is_unseen self (Some q) label = false) as ->.
  { unfold is_unseen. rewrite Hk. apply mem_In in Hin. now rewrite Hin. }
  cbn [is_unseen]. now eexists.
Qed.

(** X14: the risk stays within [0.2, 1] whenever the classifier's
    confidence is at least 0.4. *)
Theorem predict_label_risk_bounded
    (text : string) (qid : option Z) (label : string) (conf : Q) :
  classify c (encoder self (clean_text text)) = Ok (label, conf) ->
  0.4 <= conf <= 1 ->
  exists p risk,
    predict_label self text qid = Ok p
    /\ pred_risk p = Some risk
    /\ 0.2 <= risk <= 1.
Proof.
  intros Hl [H0 H1].
  rewrite (predict_label_classified self c clf_loaded text qid label conf Hl).
  eexists _, _. split; [reflexivity |]. cbn [pred_risk].
  split; [reflexivity |].
  assert (Hr : 0.2 <= heuristic_risk label conf <= 1).
  { unfold heuristic_risk. destruct (existsb _ _); [| split; lra].
    split.
    - apply Qle_trans with 0.4; [lra | apply max_ge_l].
    - apply max_le; lra. }
  destruct Hr as [Hr0 Hr1].
  destruct (is_unseen self qid label).
  - split.
    + apply round_ge; [reflexivity |].
      apply Qle_trans with 0.5; [lra | apply max_ge_r].
    + apply round_le; [reflexivity |]. apply max_le; [exact Hr1 | lra].
  - split; [apply round_ge | apply round_le];
      solve [reflexivity | assumption].
Qed.

(** X15: for a label without any risk keyword the confidence plays no part
    in the risk: it is 0.2, or 0.5 when the label is flagged as unseen. *)
Theorem predict_label_plain_label_risk
    (text : string) (qid : option Z) (label : string) (conf : Q) :
  classify c (encoder self (clean_text text)) = Ok (label, conf) ->
  existsb (fun k => Str.contains k (Str.lower label)) risk_keywords = false ->
  exists p risk,
    predict_label self text qid = Ok p
    /\ pred_risk p = Some risk
    /\ risk == (if is_unseen self qid label then 0.5 else 0.2).
Proof.
  intros Hl Hk.
  rewrite (predict_label_classified self c clf_loaded text qid label conf Hl).
  eexists _, _. split; [reflexivity |]. cbn [pred_risk].
  split; [reflexivity |].
  unfold heuristic_risk. rewrite Hk.
  destruct (is_unseen self qid label); reflexivity.
Qed.

End PredictLabel.

Lemma predict_label_hard_prediction_witness :
  exists p conf risk,
    predict_label (mis_analyzer (Demo.app (Some (Demo.clf_hard "wrong sign"))))
      Demo.user None = Ok p
    /\ pred_label p = Some "wrong sign"
    /\ pred_confidence p = Some conf /\ conf == 0.6
    /\ pred_risk p = Some risk
    /\ risk
       == (if existsb (fun k => Str.contains k (Str.lower "wrong sign"))
                risk_keywords
           then 0.8 else 0.2).
Proof.
  apply (predict_label_hard_prediction
           (mis_analyzer (Demo.app (Some (Demo.clf_hard "wrong sign"))))
           (Demo.clf_hard "wrong sign") eq_refl Demo.user
           (Exception "predict_proba is not available") "wrong sign");
    reflexivity.
Defined.

Lemma predict_label_known_label_witness :
  exists p,
    predict_label (mis_analyzer (Demo.app (Some (Demo.clf_hard "A"))))
      Demo.user (Some 7%Z) = Ok p
    /\ predict_label (mis_analyzer (Demo.app (Some (Demo.clf_hard "A"))))
         Demo.user None = Ok p
    /\ pred_label p = Some "A".
Proof.
  apply (predict_label_known_label
           (mis_analyzer (Demo.app (Some (Demo.clf_hard "A"))))
           (Demo.clf_hard "A") eq_refl Demo.user 7%Z ["A"; "B"] "A" 0.6).
  - vm_compute. reflexivity.
  - reflexivity.
  - simpl. now left.
Defined.

Lemma predict_label_risk_bounded_witness :
  exists p risk,
    predict_label
      (mis_analyzer (Demo.app (Some (Demo.clf3 [0.5; 0.3; 0.2]))))
      Demo.user (Some 7%Z) = Ok p
    /\ pred_risk p = Some risk
    /\ 0.2 <= risk <= 1.
Proof.
  apply (predict_label_risk_bounded
           (mis_analyzer (Demo.app (Some (Demo.clf3 [0.5; 0.3; 0.2]))))
           (Demo.clf3 [0.5; 0.3; 0.2]) eq_refl Demo.user (Some 7%Z)
           "noise" 0.5).
  - vm_compute. reflexivity.
  - split; unfold Qle; simpl; lia.
Defined.

Lemma predict_label_plain_label_risk_witness :
  exists p risk,
    predict_label
      (mis_analyzer (Demo.app (Some (Demo.clf3 [0.1; 0.2; 0.7]))))
      Demo.user (Some 7%Z) = Ok p
    /\ pred_risk p = Some risk
    /\ risk
       == (if is_unseen
                (mis_analyzer (Demo.app (Some (Demo.clf3 [0.1; 0.2; 0.7]))))
                (Some 7%Z) "C"
           then 0.5 else 0.2).
Proof.
  apply (predict_label_plain_label_risk
           (mis_analyzer (Demo.app (Some (Demo.clf3 [0.1; 0.2; 0.7]))))
           (Demo.clf3 [0.1; 0.2; 0.7]) eq_refl Demo.user (Some 7%Z) "C" 0.7).
  - vm_compute. reflexivity.
  - vm_compute. reflexivity.
Defined.

(* ===================================================================== *)
(** * The label table after loading *)

Section LabelTable.

Variable enc : Encoder.

Lemma str_lt_irrefl (a : string) : ~ str_lt a a.
Proof.
  unfold str_lt. intros H.
  pose proof (String.compare_antisym a a) as E. rewrite H in E.
  discriminate E.
Qed.

Lemma str_lt_flip (a b : string) : String.compare a b = Gt -> str_lt b a.
Proof.
  unfold str_lt. intros H. rewrite String.compare_antisym, H. reflexivity.
Qed.

Lemma str_lt_le (a b : string) : str_lt a b -> strings.String.le a b.
Proof.
  unfold str_lt, strings.String.le, String.leb. now intros ->.
Qed.

Lemma str_lt_trans (a b c : string) : str_lt a b -> str_lt b c -> str_lt a c.
Proof.
  intros Hab Hbc.
  assert (Hac : strings.String.le a c).
  { transitivity b; now apply str_lt_le. }
  unfold strings.String.le, String.leb in Hac. unfold str_lt.
  destruct (String.compare a c) eqn:E; [| reflexivity | contradiction].
  apply String.compare_eq_iff in E. subst c.
  unfold str_lt in *. rewrite String.compare_antisym, Hab in Hbc.
  discriminate Hbc.
Qed.

Lemma insert_sorted_sorted (x : string) (xs : list string) :
  StronglySorted str_lt xs -> StronglySorted str_lt (Str.insert_sorted x xs).
Proof.
  induction xs as [| y t IH]; intros Hs; simpl.
  - repeat constructor.
  - apply StronglySorted_inv in Hs as [Ht Hy].
    destruct (String.compare x y) eqn:C.
    + now constructor.
    + constructor; [now constructor |].
      constructor; [exact C |].
      eapply List.Forall_impl; [| exact Hy].
      intros z Hz. now apply str_lt_trans with y.
    + constructor; [now apply IH |].
      apply List.Forall_forall. intros z Hz.
      apply insert_sorted_In in Hz as [-> | Hz].
      * now apply str_lt_flip.
      * rewrite List.Forall_forall in Hy. now apply Hy.
Qed.

Lemma sorted_set_sorted (xs : list string) :
  StronglySorted str_lt (Str.sorted_set xs).
Proof.
  unfold Str.sorted_set. induction xs as [| x t IH]; simpl.
  - constructor.
  - now apply insert_sorted_sorted.
Qed.

Lemma strongly_sorted_NoDup (xs : list string) :
  StronglySorted str_lt xs -> List.NoDup xs.
Proof.
  induction 1 as [| x t Ht IH Hx]; constructor; [| exact IH].
  intros Hin. rewrite List.Forall_forall in Hx.
  now apply (str_lt_irrefl x), Hx.
Qed.

Lemma init_label_ref_inv (art : ArtifactsDir) (q : Z) (known : list string) :
  label_ref (MisconceptionAnalyzer_init art enc) !! q = Some known ->
  exists df,
    cluster_labels_parquet art = Some df
    /\ In q (map fst df)
    /\ known = Str.sorted_set (group df q).
Proof.
  unfold MisconceptionAnalyzer_init, _load. cbn [label_ref].
  destruct (cluster_labels_parquet art) as [df |]; [| now rewrite lookup_empty].
  rewrite (fold_insert_lookup (fun k => Str.sorted_set (group df k))).
  destruct (in_dec Z.eq_dec q (map fst df)) as [Hin | _];
    [| now rewrite lookup_empty].
  intros H. injection H as <-. now exists df.
Qed.

(** X17: every reference list that loading stores is strictly increasing in
    the string order, hence free of duplicates, and it is not empty. *)
Theorem label_ref_sorted_nodup
    (art : ArtifactsDir) (q : Z) (known : list string) :
  label_ref (MisconceptionAnalyzer_init art enc) !! q = Some known ->
  StronglySorted str_lt known /\ List.NoDup known /\ known <> [].
Proof.
  intros H. apply init_label_ref_inv in H as (df & _ & Hq & ->).
  pose proof (sorted_set_sorted (group df q)) as Hs.
  split; [exact Hs |]. split; [now apply strongly_sorted_NoDup |].
  apply in_map_iff in Hq as ([q' l] & E & Hin). simpl in E. subst q'.
  intros Hnil. apply (group_In df q l) in Hin.
  apply sorted_set_In in Hin. rewrite Hnil in Hin. exact Hin.
Qed.

(** X18: a question that the label table does not mention (or any question
    when there is no table) has no reference set, so [predict_label] ignores
    the qid: the result is the one of the call without qid. *)
Theorem predict_label_unknown_question
    (art : ArtifactsDir) (text : string) (q : Z) :
  (forall df, cluster_labels_parquet art = Some df -> ~ In q (map fst df)) ->
  predict_label (MisconceptionAnalyzer_init art enc) text (Some q)
  = predict_label (MisconceptionAnalyzer_init art enc) text None.
Proof.
  intros Hq.
  assert (Hnone : label_ref (MisconceptionAnalyzer_init art enc) !! q = None).
  { destruct (label_ref (MisconceptionAnalyzer_init art enc) !! q)
      as [known |] eqn:E; [| reflexivity].
    apply init_label_ref_inv in E as (df & Hdf & Hin & _).
    now destruct (Hq df Hdf). }
  unfold predict_label. now rewrite Hnone.
Qed.

End LabelTable.

Lemma label_ref_sorted_nodup_witness :
  StronglySorted str_lt ["A"; "B"] /\ List.NoDup ["A"; "B"]
  /\ ["A"; "B"] <> [].
Proof.
  apply (label_ref_sorted_nodup Demo.enc (Demo.dir None) 7%Z ["A"; "B"]).
  vm_compute. reflexivity.
Defined.

Lemma predict_label_unknown_question_witness :
  predict_label
    (MisconceptionAnalyzer_init (Demo.dir (Some (Demo.clf3 [0.1; 0.2; 0.7])))
       Demo.enc) Demo.user (Some 8%Z)
  = predict_label
      (MisconceptionAnalyzer_init (Demo.dir (Some (Demo.clf3 [0.1; 0.2; 0.7])))
         Demo.enc) Demo.user None.
Proof.
  apply (predict_label_unknown_question Demo.enc
           (Demo.dir (Some (Demo.clf3 [0.1; 0.2; 0.7]))) Demo.user 8%Z).
  intros df E. injection E as <-. simpl.
  intros [H | [H | [H | []]]]; discriminate H.
Defined.

Lemma init_label_ref_lookup_witness :
  exists known,
    label_ref (MisconceptionAnalyzer_init (Demo.dir None) Demo.enc) !! 7%Z
    = Some known
    /\ forall l, In l known <-> In (7%Z, l) Demo.labels.
Proof.
  apply (init_label_ref_lookup Demo.enc (Demo.dir None) Demo.labels 7%Z "A").
  - reflexivity.
  - simpl. right. now left.
Defined.

(* ===================================================================== *)
(** * More on the analysis service *)

Lemma suggest_guidance_ok
    (self : MisconceptionAnalyzer) (question ideal user mis_label : string)
    (sim_ui : Q) :
  similarity self user ideal = Ok sim_ui ->
  suggest_guidance self question ideal user mis_label
  = Ok (Spec.guidance guidance_keywords sim_ui mis_label).
Proof.
  intros H. unfold suggest_guidance, Spec.guidance. rewrite H. cbn [bind].
  destruct (Num.ltb sim_ui 0.65), (existsb _ _); reflexivity.
Qed.

Lemma mis_risk_of_range (p : Prediction) : 0 <= mis_risk_of p <= 1.
Proof. rewrite mis_risk_of_spec. apply clamp01_range. Qed.

Lemma similarity_bounds
    (self : MisconceptionAnalyzer) (a_text b_text : string) (s : Q) :
  similarity self a_text b_text = Ok s -> -1 <= s <= 1.
Proof.
  rewrite similarity_unfold.
  destruct (cosine_sim _ _) as [c |] eqn:E; [| discriminate].
  intros H. injection H as <-.
  unfold cosine_sim in E.
  destruct (matmul_row _ _) as [t |]; [| discriminate].
  injection E as <-. destruct (clamp_range t) as [H0 H1].
  split; [apply round_ge | apply round_le]; solve [reflexivity | assumption].
Qed.

Section AnalyzeMore.

Variable app : App.
Variable b : AnalyzeBody.

Lemma analyze_freeform_body_ok
    (sim_ui sim_qi : Q) (p : Prediction) (d : DifficultyEstimate) :
  similarity (mis_analyzer app) (user_answer_text b) (ideal_answer_text b)
  = Ok sim_ui ->
  similarity (mis_analyzer app) (question_text b) (ideal_answer_text b)
  = Ok sim_qi ->
  predict_label (mis_analyzer app) (user_answer_text b) (qid b) = Ok p ->
  estimate (diff_est app) (question_text b) (qid b) = Ok d ->
  analyze_freeform_body app b
  = Ok (analysis_result b sim_ui sim_qi p d
          (Spec.guidance guidance_keywords sim_ui (get (pred_label p) "noise"))).
Proof.
  intros Hui Hqi Hp Hd. unfold analyze_freeform_body.
  rewrite Hui, Hqi, Hp, Hd. cbn [bind].
  rewrite (suggest_guidance_ok _ _ _ _ _ sim_ui Hui). reflexivity.
Qed.

(** What the endpoint answers, by the first component that raises. *)
Lemma post_analyze_freeform_cases :
  AnalyzeBody_valid b = true ->
  (exists sim_ui sim_qi p d,
      similarity (mis_analyzer app) (user_answer_text b) (ideal_answer_text b)
      = Ok sim_ui
      /\ similarity (mis_analyzer app) (question_text b) (ideal_answer_text b)
         = Ok sim_qi
      /\ predict_label (mis_analyzer app) (user_answer_text b) (qid b) = Ok p
      /\ estimate (diff_est app) (question_text b) (qid b) = Ok d
      /\ post_analyze_freeform app b
         = Json (analysis_result b sim_ui sim_qi p d
                   (Spec.guidance guidance_keywords sim_ui
                      (get (pred_label p) "noise"))))
  \/ (exists e,
        (similarity (mis_analyzer app) (user_answer_text b)
           (ideal_answer_text b) = Raise e
         \/ similarity (mis_analyzer app) (question_text b)
              (ideal_answer_text b) = Raise e
         \/ predict_label (mis_analyzer app) (user_answer_text b) (qid b)
            = Raise e
         \/ estimate (diff_est app) (question_text b) (qid b) = Raise e)
        /\ post_analyze_freeform app b
           = HTTPException 500 ("Analysis failed: " ++ exn_msg e)%string).
Proof.
  intros Hv. unfold post_analyze_freeform. rewrite Hv. unfold analyze_freeform.
  destruct (similarity (mis_analyzer app) (user_answer_text b)
              (ideal_answer_text b)) as [s | e] eqn:Hui.
  2:{ right. exists e. split; [now left |].
      unfold analyze_freeform_body. now rewrite Hui. }
  destruct (similarity (mis_analyzer app) (question_text b)
              (ideal_answer_text b)) as [sq | e] eqn:Hqi.
  2:{ right. exists e. split; [now right; left |].
      unfold analyze_freeform_body. now rewrite Hui, Hqi. }
  destruct (predict_label (mis_analyzer app) (user_answer_text b) (qid b))
    as [p | e] eqn:Hp.
  2:{ right. exists e. split; [now right; right; left |].
      unfold analyze_freeform_body. now rewrite Hui, Hqi, Hp. }
  destruct (estimate (diff_est app) (question_text b) (qid b))
    as [d | e] eqn:Hd.
  2:{ right. exists e. split; [now right; right; right |].
      unfold analyze_freeform_body. now rewrite Hui, Hqi, Hp, Hd. }
  left. exists s, sq, p, d. repeat (split; [reflexivity |]).
  now rewrite (analyze_freeform_body_ok s sq p d Hui Hqi Hp Hd).
Qed.

Lemma post_analyze_freeform_inv (r : AnalysisResult) :
  post_analyze_freeform app b = Json r ->
  exists sim_ui sim_qi p d,
    similarity (mis_analyzer app) (user_answer_text b) (ideal_answer_text b)
    = Ok sim_ui
    /\ similarity (mis_analyzer app) (question_text b) (ideal_answer_text b)
       = Ok sim_qi
    /\ predict_label (mis_analyzer app) (user_answer_text b) (qid b) = Ok p
    /\ estimate (diff_est app) (question_text b) (qid b) = Ok d
    /\ r = analysis_result b sim_ui sim_qi p d
             (Spec.guidance guidance_keywords sim_ui
                (get (pred_label p) "noise")).
Proof.
  intros H.
  destruct (AnalyzeBody_valid b) eqn:Hv;
    [| unfold post_analyze_freeform in H; rewrite Hv in H; discriminate H].
  destruct (post_analyze_freeform_cases Hv)
    as [(s & sq & p & d & Hui & Hqi & Hp & Hd & E) | (e & _ & E)];
    rewrite E in H; [| discriminate H].
  injection H as <-. now exists s, sq, p, d.
Qed.

(** X19: every answer score that the endpoint returns lies in [-0.65, 1],
    and it is not negative when the user-vs-ideal similarity is not. *)
Theorem answer_score_range (r : AnalysisResult) (sim_ui : Q) :
  post_analyze_freeform app b = Json r ->
  similarity (mis_analyzer app) (user_answer_text b) (ideal_answer_text b)
  = Ok sim_ui ->
  -0.65 <= answer_score r <= 1 /\ (0 <= sim_ui -> 0 <= answer_score r).
Proof.
  intros H Hs.
  apply post_analyze_freeform_inv in H
    as (s & sq & p & d & Hui & _ & _ & _ & ->).
  rewrite Hs in Hui. injection Hui as <-.
  apply similarity_bounds in Hs as [Hs0 Hs1].
  destruct (mis_risk_of_range p) as [Hm0 Hm1].
  cbn [answer_score analysis_result].
  split; [split |].
  - apply round_ge; [reflexivity | lra].
  - apply round_le; [reflexivity | lra].
  - intros Hr. apply round_ge; [reflexivity | lra].
Qed.

(** X20: the pie of every returned result has the three slices "Matches
    Ideal", "Gaps vs Ideal" and "Misconception Risk", in this order; the
    first is the reported user-vs-ideal similarity, the gap is never
    negative and the risk slice lies in [0, 0.4]. *)
Theorem pie_slices (r : AnalysisResult) :
  post_analyze_freeform app b = Json r ->
  exists gap risk,
    pie (charts r)
    = [ ("Matches Ideal", user_vs_ideal (res_similarity r));
        ("Gaps vs Ideal", gap);
        ("Misconception Risk", risk) ]
    /\ 0 <= gap
    /\ 0 <= risk <= 0.4.
Proof.
  intros H.
  apply post_analyze_freeform_inv in H
    as (s & sq & p & d & _ & _ & _ & _ & ->).
  destruct (mis_risk_of_range p) as [Hm0 Hm1].
  cbn [pie charts analysis_result res_similarity user_vs_ideal].
  eexists _, _. split; [reflexivity |]. split; [| split].
  - apply round_ge; [reflexivity |].
    apply Qle_trans with 0.0; [lra | apply max_ge_l].
  - apply round_ge; [reflexivity |].
    unfold Num.min. apply Q.min_glb; [lra | exact Hm0].
  - apply round_le; [reflexivity | apply min_le_l].
Qed.

(** X21: an error answer of the analyze endpoint always has status 500, and
    its detail is "Analysis failed: " followed by the message of the
    component that raised: one of the two similarities, the prediction or the
    difficulty estimate. *)
Theorem analyze_freeform_error (status_code : Z) (detail : string) :
  post_analyze_freeform app b = HTTPException status_code detail ->
  status_code = 500%Z
  /\ exists e,
       detail = ("Analysis failed: " ++ exn_msg e)%string
       /\ (similarity (mis_analyzer app) (user_answer_text b)
             (ideal_answer_text b) = Raise e
           \/ similarity (mis_analyzer app) (question_text b)
                (ideal_answer_text b) = Raise e
           \/ predict_label (mis_analyzer app) (user_answer_text b) (qid b)
              = Raise e
           \/ estimate (diff_est app) (question_text b) (qid b) = Raise e).
Proof.
  intros H.
  destruct (AnalyzeBody_valid b) eqn:Hv;
    [| unfold post_analyze_freeform in H; rewrite Hv in H; discriminate H].
  destruct (post_analyze_freeform_cases Hv)
    as [(s & sq & p & d & _ & _ & _ & _ & E) | (e & He & E)];
    rewrite E in H; [discriminate H |].
  injection H as <- <-. split; [reflexivity |]. now exists e.
Qed.

(** X22: the degraded mode of the whole analysis: without a classifier and
    with the other components answering, the endpoint returns the fallback
    prediction, a score within 0.001 of 0.65*sim_ui + 0.21 (the blend with
    the fallback risk 0.4, before its rounding to three decimals), and a
    guidance text without the contrast tip. *)
Theorem analyze_without_classifier
    (sim_ui sim_qi : Q) (d : DifficultyEstimate) :
  AnalyzeBody_valid b = true ->
  clf (mis_analyzer app) = None ->
  similarity (mis_analyzer app) (user_answer_text b) (ideal_answer_text b)
  = Ok sim_ui ->
  similarity (mis_analyzer app) (question_text b) (ideal_answer_text b)
  = Ok sim_qi ->
  estimate (diff_est app) (question_text b) (qid b) = Ok d ->
  exists r,
    post_analyze_freeform app b = Json r
    /\ res_misconception r = fallback_prediction
    /\ - (1 # 1000) <= answer_score r - (0.65 * sim_ui + 0.21) <= 1 # 1000
    /\ guidance r
       = String.concat " "
           ([tip_start]
            ++ (if Num.ltb sim_ui 0.65 then [tip_definition] else [])
            ++ [tip_finish]).
Proof.
  intros Hv Hc Hui Hqi Hd.
  pose proof (predict_label_no_clf (mis_analyzer app) (user_answer_text b)
                (qid b) Hc) as Hp.
  eexists. split.
  - unfold post_analyze_freeform, analyze_freeform. rewrite Hv.
    rewrite (analyze_freeform_body_ok sim_ui sim_qi _ d Hui Hqi Hp Hd).
    reflexivity.
  - cbn [res_misconception answer_score guidance analysis_result].
    split; [reflexivity |]. split.
    + change (mis_risk_of fallback_prediction) with 0.4.
      pose proof (round3_nearest (0.65 * sim_ui + 0.35 * (1.0 - 0.4)))
        as [H0 H1].
      split; lra.
    + unfold Spec.guidance.
      replace (existsb _ guidance_keywords) with false
        by (vm_compute; reflexivity).
      reflexivity.
Qed.

(** X30: every answer score that the endpoint returns is within 0.001 of
    0.65*sim_ui + 0.35*(1 - mis_risk), the blend before its rounding to three
    decimals, for the similarity and the prediction of that request. *)
Theorem answer_score_near_blend
    (r : AnalysisResult) (sim_ui : Q) (p : Prediction) :
  post_analyze_freeform app b = Json r ->
  similarity (mis_analyzer app) (user_answer_text b) (ideal_answer_text b)
  = Ok sim_ui ->
  predict_label (mis_analyzer app) (user_answer_text b) (qid b) = Ok p ->
  - (1 # 1000)
  <= answer_score r - (0.65 * sim_ui + 0.35 * (1 - mis_risk_of p))
  <= 1 # 1000.
Proof.
  intros H Hs Hp.
  apply post_analyze_freeform_inv in H
    as (s' & sq & p' & d & Hui & _ & Hp' & _ & ->).
  rewrite Hs in Hui. injection Hui as <-.
  rewrite Hp in Hp'. injection Hp' as <-.
  cbn [answer_score analysis_result].
  pose proof (round3_nearest (0.65 * sim_ui + 0.35 * (1.0 - mis_risk_of p)))
    as [H0 H1].
  split; lra.
Qed.

End AnalyzeMore.

Lemma answer_score_near_blend_witness :
  exists r,
    post_analyze_freeform (Demo.app (Some (Demo.clf3 [0.36; 0.32; 0.32])))
      (Demo.body None) = Json r
    /\ - (1 # 1000)
       <= answer_score r
          - (0.65 * (8000 # 10000)
             + 0.35 * (1 - mis_risk_of
                             {| pred_label := Some "noise";
                                pred_confidence := Some (360 # 1000);
                                pred_risk := Some (1040 # 1000);
                                pred_explanation := None |}))
       <= 1 # 1000.
Proof.
  eexists. split; [vm_compute; reflexivity |].
  apply (answer_score_near_blend
           (Demo.app (Some (Demo.clf3 [0.36; 0.32; 0.32]))) (Demo.body None)).
  - vm_compute. reflexivity.
  - vm_compute. reflexivity.
  - vm_compute. reflexivity.
Defined.

Lemma answer_score_range_witness :
  exists r,
    post_analyze_freeform (Demo.app (Some (Demo.clf3 [0.36; 0.32; 0.32])))
      (Demo.body None) = Json r
    /\ -0.65 <= answer_score r <= 1
    /\ (0 <= 8000 # 10000 -> 0 <= answer_score r).
Proof.
  eexists. split; [vm_compute; reflexivity |].
  apply (answer_score_range (Demo.app (Some (Demo.clf3 [0.36; 0.32; 0.32])))
           (Demo.body None)).
  - vm_compute. reflexivity.
  - vm_compute. reflexivity.
Defined.

Lemma pie_slices_witness :
  exists r gap risk,
    post_analyze_freeform (Demo.app (Some (Demo.clf3 [0.36; 0.32; 0.32])))
      (Demo.body None) = Json r
    /\ pie (charts r)
       = [ ("Matches Ideal", user_vs_ideal (res_similarity r));
           ("Gaps vs Ideal", gap);
           ("Misconception Risk", risk) ]
    /\ 0 <= gap
    /\ 0 <= risk <= 0.4.
Proof.
  eexists.
  assert (H : post_analyze_freeform
                (Demo.app (Some (Demo.clf3 [0.36; 0.32; 0.32])))
                (Demo.body None) = Json _) by (vm_compute; reflexivity).
  destruct (pie_slices _ _ _ H) as (gap & risk & Hp).
  exists gap, risk. split; [exact H | exact Hp].
Defined.

Lemma analyze_freeform_error_witness :
  500%Z = 500%Z
  /\ exists e,
       "Analysis failed: difficulty model not fitted"
       = ("Analysis failed: " ++ exn_msg e)%string
       /\ (similarity
             (mis_analyzer (startup (Demo.dir None) Demo.enc Demo.est_broken))
             (user_answer_text (Demo.body None))
             (ideal_answer_text (Demo.body None)) = Raise e
           \/ similarity
                (mis_analyzer
                   (startup (Demo.dir None) Demo.enc Demo.est_broken))
                (question_text (Demo.body None))
                (ideal_answer_text (Demo.body None)) = Raise e
           \/ predict_label
                (mis_analyzer
                   (startup (Demo.dir None) Demo.enc Demo.est_broken))
                (user_answer_text (Demo.body None)) (qid (Demo.body None))
              = Raise e
           \/ estimate
                (diff_est (startup (Demo.dir None) Demo.enc Demo.est_broken))
                (question_text (Demo.body None)) (qid (Demo.body None))
              = Raise e).
Proof.
  apply (analyze_freeform_error
           (startup (Demo.dir None) Demo.enc Demo.est_broken)
           (Demo.body None) 500%Z
           "Analysis failed: difficulty model not fitted").
  vm_compute. reflexivity.
Defined.

Lemma analyze_without_classifier_witness :
  exists r,
    post_analyze_freeform (Demo.app None) (Demo.body None) = Json r
    /\ res_misconception r = fallback_prediction
    /\ - (1 # 1000)
       <= answer_score r - (0.65 * (8000 # 10000) + 0.21) <= 1 # 1000
    /\ guidance r
       = String.concat " "
           ([tip_start]
            ++ (if Num.ltb (8000 # 10000) 0.65 then [tip_definition] else [])
            ++ [tip_finish]).
Proof.
  apply (analyze_without_classifier (Demo.app None) (Demo.body None)
           (8000 # 10000) (0 # 10000)
           {| difficulty_norm := 0.5; bucket := "medium"; diff_qid := None |}).
  - reflexivity.
  - reflexivity.
  - vm_compute. reflexivity.
  - vm_compute. reflexivity.
  - reflexivity.
Defined.

(* ===================================================================== *)
(** * The unseen flag in the analysis, guidance texts, prediction errors *)

Lemma length_append (a b : string) :
  String.length (a ++ b) = (String.length a + String.length b)%nat.
Proof.
  induction a as [| c a IH]; [reflexivity |].
  rewrite append_cons. simpl. now rewrite IH.
Qed.

Lemma marked_label_not_noise (label : string) :
  is_noise_or_misc (Some (label ++ unseen_marker)%string) = false.
Proof.
  cbn [is_noise_or_misc]. apply orb_false_iff.
  split; apply String.eqb_neq; intros E; apply (f_equal String.length) in E;
    rewrite length_append in E; simpl in E; lia.
Qed.

(** X23: the "noise"/"misc" special case of the analysis never applies to a
    label flagged as unseen: for such a prediction the analysis takes the
    risk field, so its [mis_risk] lies in [0.5, 1]. *)
Theorem unseen_label_mis_risk
    (self : MisconceptionAnalyzer) (c : Classifier) (text : string) (q : Z)
    (known : list string) (label : string) (conf : Q) :
  clf self = Some c ->
  label_ref self !! q = Some known ->
  classify c (encoder self (clean_text text)) = Ok (label, conf) ->
  ~ In label known ->
  exists p,
    predict_label self text (Some q) = Ok p
    /\ 0.5 <= mis_risk_of p <= 1.
Proof.
  intros Hc Hk Hl Hn.
  rewrite (predict_label_classified self c Hc text (Some q) label conf Hl).
  rewrite (is_unseen_true self q known label Hk Hn).
  eexists. split; [reflexivity |].
  split; [| apply mis_risk_of_range].
  unfold mis_risk_of. cbn [pred_label pred_risk pred_confidence get].
  rewrite marked_label_not_noise.
  apply Qle_trans with (Num.min 1.0 (Num.round
                          (Num.max (heuristic_risk label conf) 0.5) 3));
    [| apply max_ge_r].
  unfold Num.min. apply Q.min_glb; [lra |].
  apply round_ge; [reflexivity | apply max_ge_r].
Qed.

Lemma unseen_label_mis_risk_witness :
  exists p,
    predict_label
      (mis_analyzer (Demo.app (Some (Demo.clf_hard "noise"))))
      Demo.user (Some 7%Z) = Ok p
    /\ 0.5 <= mis_risk_of p <= 1.
Proof.
  apply (unseen_label_mis_risk
           (mis_analyzer (Demo.app (Some (Demo.clf_hard "noise"))))
           (Demo.clf_hard "noise") Demo.user 7%Z ["A"; "B"] "noise" 0.6).
  - reflexivity.
  - vm_compute. reflexivity.
  - reflexivity.
  - simpl. intros [H | [H | []]]; discriminate H.
Defined.

(** X24: whatever the inputs, a guidance text is one of four fixed texts; it
    starts with the opening tip and ends with the closing tip. *)
Theorem suggest_guidance_shape
    (self : MisconceptionAnalyzer) (question ideal user mis_label g : string) :
  suggest_guidance self question ideal user mis_label = Ok g ->
  In g guidance_texts
  /\ String.prefix tip_start g = true
  /\ Str.endswith g tip_finish = true.
Proof.
  intros H.
  destruct (similarity self user ideal) as [s | e] eqn:Hs;
    [| rewrite (suggest_guidance_raises _ _ _ _ _ e Hs) in H; discriminate H].
  rewrite (suggest_guidance_ok _ _ _ _ _ s Hs) in H. injection H as <-.
  unfold Spec.guidance, guidance_texts.
  destruct (Num.ltb s 0.65), (existsb _ _); cbn [app].
  - split; [right; right; right; left; reflexivity |].
    split; vm_compute; reflexivity.
  - split; [right; left; reflexivity |]. split; vm_compute; reflexivity.
  - split; [right; right; left; reflexivity |].
    split; vm_compute; reflexivity.
  - split; [left; reflexivity |]. split; vm_compute; reflexivity.
Qed.

Lemma suggest_guidance_shape_witness :
  In (String.concat " " [tip_start; tip_contrast; tip_finish]) guidance_texts
  /\ String.prefix tip_start
       (String.concat " " [tip_start; tip_contrast; tip_finish]) = true
  /\ Str.endswith (String.concat " " [tip_start; tip_contrast; tip_finish])
       tip_finish = true.
Proof.
  apply (suggest_guidance_shape (mis_analyzer (Demo.app None)) Demo.question
           Demo.ideal Demo.user "NFA vs DFA").
  vm_compute. reflexivity.
Defined.

(** X25: the prediction endpoint fails only through the classifier: an
    error answer has status 500, a classifier is loaded, its hard prediction
    raised, and the detail is "Misconception prediction failed: " followed
    by the message of that exception. *)
Theorem predict_misconception_error
    (app : App) (text : string) (qid : option Z) (status_code : Z)
    (detail : string) :
  predict_misconception app text qid = HTTPException status_code detail ->
  status_code = 500%Z
  /\ exists c e,
       clf (mis_analyzer app) = Some c
       /\ predict c (encoder (mis_analyzer app) (clean_text text)) = Raise e
       /\ detail = ("Misconception prediction failed: " ++ exn_msg e)%string.
Proof.
  unfold predict_misconception.
  destruct (predict_label (mis_analyzer app) text qid) as [p | e] eqn:Hp;
    [discriminate |].
  intros H. injection H as <- <-. split; [reflexivity |].
  destruct (clf (mis_analyzer app)) as [c |] eqn:Hc.
  - exists c, e. split; [reflexivity |]. split; [| reflexivity].
    destruct (classify c (encoder (mis_analyzer app) (clean_text text)))
      as [[label conf] | e'] eqn:Hl.
    + rewrite (predict_label_classified _ c Hc text qid label conf Hl) in Hp.
      discriminate Hp.
    + rewrite (predict_label_raises _ c Hc text qid e' Hl) in Hp.
      injection Hp as ->. now apply classify_raise_inv.
  - rewrite (predict_label_no_clf _ text qid Hc) in Hp. discriminate Hp.
Qed.

Lemma predict_misconception_error_witness :
  500%Z = 500%Z
  /\ exists c e,
       clf (mis_analyzer (Demo.app (Some Demo.clf_broken))) = Some c
       /\ predict c
            (encoder (mis_analyzer (Demo.app (Some Demo.clf_broken)))
               (clean_text Demo.user)) = Raise e
       /\ "Misconception prediction failed: X has 2 features, but 384 expected"
          = ("Misconception prediction failed: " ++ exn_msg e)%string.
Proof.
  apply (predict_misconception_error (Demo.app (Some Demo.clf_broken))
           Demo.user None 500%Z
           "Misconception prediction failed: X has 2 features, but 384 expected").
  vm_compute. reflexivity.
Defined.

(* ===================================================================== *)
(** * Blank texts, rounding, the encoder singleton *)

Lemma clean_text_blank (t : string) :
  remove_spaces t = ""%string -> clean_text t = ""%string.
Proof.
  intros H.
  assert (E : remove_spaces (clean_text t) = ""%string).
  { unfold clean_text, Str.strip.
    now rewrite remove_spaces_sub_spaces, remove_spaces_rstrip,
      remove_spaces_lstrip. }
  destruct (clean_text_trimmed t) as [Hf _].
  destruct (clean_text t) as [| c s]; [reflexivity |].
  simpl in Hf. cbn [remove_spaces] in E. rewrite Hf in E. discriminate E.
Qed.

(** X26: a text made of ASCII whitespace only (blanks, tabs, line breaks
    and the like) is analysed as the empty text: its
    similarity to any text and its prediction are those of the empty
    string. *)
Theorem blank_text_as_empty
    (self : MisconceptionAnalyzer) (a_text b_text : string) (qid : option Z) :
  remove_spaces a_text = ""%string ->
  similarity self a_text b_text = similarity self "" b_text
  /\ similarity self b_text a_text = similarity self b_text ""
  /\ predict_label self a_text qid = predict_label self "" qid.
Proof.
  intros H. apply clean_text_blank in H.
  unfold predict_label. rewrite !similarity_unfold, H.
  repeat split; reflexivity.
Qed.

Lemma blank_text_as_empty_witness :
  similarity (mis_analyzer (Demo.app None)) "   " Demo.ideal
  = similarity (mis_analyzer (Demo.app None)) "" Demo.ideal
  /\ similarity (mis_analyzer (Demo.app None)) Demo.ideal "   "
     = similarity (mis_analyzer (Demo.app None)) Demo.ideal ""
  /\ predict_label (mis_analyzer (Demo.app None)) "   " (Some 7%Z)
     = predict_label (mis_analyzer (Demo.app None)) "" (Some 7%Z).
Proof.
  apply (blank_text_as_empty (mis_analyzer (Demo.app None)) "   " Demo.ideal
           (Some 7%Z)).
  reflexivity.
Defined.

(** X27: the confidence that [predict_label] returns has three decimals and
    is within 0.0005 of the classifier's confidence. *)
Theorem predict_label_confidence_rounded
    (self : MisconceptionAnalyzer) (c : Classifier) (text : string)
    (qid : option Z) (label : string) (conf : Q) :
  clf self = Some c ->
  classify c (encoder self (clean_text text)) = Ok (label, conf) ->
  exists p (k : Z),
    predict_label self text qid = Ok p
    /\ pred_confidence p = Some (k # 1000)
    /\ (k # 1000) - (1 # 2000) <= conf <= (k # 1000) + (1 # 2000).
Proof.
  intros Hc Hl.
  rewrite (predict_label_classified self c Hc text qid label conf Hl).
  eexists _, _. split; [reflexivity |]. cbn [pred_confidence].
  split; [reflexivity |]. apply (round3_nearest conf).
Qed.

Lemma predict_label_confidence_rounded_witness :
  exists p (k : Z),
    predict_label
      (mis_analyzer (Demo.app (Some (Demo.clf3 [0.33333; 0.33333; 0.33334]))))
      Demo.user None = Ok p
    /\ pred_confidence p = Some (k # 1000)
    /\ (k # 1000) - (1 # 2000) <= 0.33334 <= (k # 1000) + (1 # 2000).
Proof.
  apply (predict_label_confidence_rounded
           (mis_analyzer
              (Demo.app (Some (Demo.clf3 [0.33333; 0.33333; 0.33334]))))
           (Demo.clf3 [0.33333; 0.33333; 0.33334]) Demo.user None "C" 0.33334).
  - reflexivity.
  - vm_compute. reflexivity.
Defined.

(** X28: the encoder is a process-wide singleton: whatever the state, after
    one call of [get_encoder] every later call returns the same encoder and
    leaves the state alone, whatever model name it asks for. *)
Theorem get_encoder_singleton
    (SentenceTransformer : string -> Encoder) (name1 name2 : string)
    (state : option Encoder) :
  get_encoder SentenceTransformer name2
    (snd (get_encoder SentenceTransformer name1 state))
  = get_encoder SentenceTransformer name1 state
  /\ fst (get_encoder SentenceTransformer name1 None)
     = SentenceTransformer name1.
Proof.
  split; [| reflexivity]. now destruct state.
Qed.

Lemma clamp01_id (x : Q) : 0 <= x <= 1 -> Spec.clamp01 x == x.
Proof.
  intros [H0 H1]. unfold Spec.clamp01.
  destruct (Num.ltb x 0) eqn:L0; [apply ltb_lt in L0; lra |].
  destruct (Num.ltb 1 x) eqn:L1; [apply ltb_lt in L1; lra |].
  reflexivity.
Qed.

(** X29: how the prediction and the analysis compose for the label "noise":
    when the classifier answers "noise" with a confidence in [0,1] and the
    label is not flagged as unseen, the analysis uses one minus the returned
    confidence as its [mis_risk], not the risk field of the prediction, which
    is at least 0.4. *)
Theorem noise_label_mis_risk
    (self : MisconceptionAnalyzer) (c : Classifier) (text : string)
    (qid : option Z) (conf : Q) :
  clf self = Some c ->
  classify c (encoder self (clean_text text)) = Ok ("noise", conf) ->
  is_unseen self qid "noise" = false ->
  0 <= conf <= 1 ->
  exists p conf' risk,
    predict_label self text qid = Ok p
    /\ pred_confidence p = Some conf'
    /\ pred_risk p = Some risk
    /\ mis_risk_of p == 1 - conf'
    /\ 0.4 <= risk.
Proof.
  intros Hc Hl Hu [H0 H1].
  rewrite (predict_label_classified self c Hc text qid "noise" conf Hl), Hu.
  eexists _, _, _. split; [reflexivity |].
  cbn [pred_confidence pred_risk]. split; [reflexivity |].
  split; [reflexivity |]. split.
  - rewrite mis_risk_of_spec, spec_mis_risk_noise by (now left).
    cbn [pred_confidence get]. apply clamp01_id.
    assert (0 <= Num.round conf 3) by (apply round_ge; [reflexivity | exact H0]).
    assert (Num.round conf 3 <= 1) by (apply round_le; [reflexivity | exact H1]).
    split; lra.
  - apply round_ge; [reflexivity |].
    unfold heuristic_risk.
    replace (existsb _ risk_keywords) with true by (vm_compute; reflexivity).
    apply max_ge_l.
Qed.

Lemma noise_label_mis_risk_witness :
  exists p conf' risk,
    predict_label
      (mis_analyzer (Demo.app (Some (Demo.clf3 [0.9; 0.05; 0.05]))))
      Demo.user None = Ok p
    /\ pred_confidence p = Some conf'
    /\ pred_risk p = Some risk
    /\ mis_risk_of p == 1 - conf'
    /\ 0.4 <= risk.
Proof.
  apply (noise_label_mis_risk
           (mis_analyzer (Demo.app (Some (Demo.clf3 [0.9; 0.05; 0.05]))))
           (Demo.clf3 [0.9; 0.05; 0.05]) Demo.user None 0.9).
  - reflexivity.
  - vm_compute. reflexivity.
  - reflexivity.
  - split; unfold Qle; simpl; lia.
Defined.
